(** * IndiFocuser: the FocuserRob INDI driver for a TB6612FNG stepper board

    A shallow embedding of [focuser_rob.cpp] (the version with the move
    engine: [move], [TimerHit], [AbortFocuser], [SetFocuserSpeed] and the
    three move requests) and the properties of its motion controller.

    Conventions of the embedding.
    - The INDI number fields ([FocusAbsPosN[0].value] and friends) are C
      [double]s.  Every value the driver stores in them is an integer of
      small magnitude, and on integers below 2^53 the double operations the
      driver uses ([+], [<], [!=], conversion from and to integer types)
      are exact, so the fields are modelled as [Z].
    - Fixed-width integers are [Z] with the wrap-around written out
      ([wrap32], [to_int32]).  Operations whose behaviour C++ leaves
      undefined (signed overflow, an out-of-range conversion from [double],
      the inter-step delay at speed zero) yield [Fail] with the fault.
    - GPIO, the INDI message sink, [IDSetNumber], [usleep] and [SetTimer]
      are external: each call is recorded as an [Event], and the last level
      written to each output line is kept in the state. *)

From Stdlib Require Import ZArith List String Bool Lia.
Import ListNotations.
Local Open Scope Z_scope.

(** ** Data model *)

Inductive IPState := IPS_IDLE | IPS_OK | IPS_BUSY | IPS_ALERT.
Inductive FocusDirection := FOCUS_INWARD | FOCUS_OUTWARD.
Inductive Pin := IN1_TB6612FNG | IN2_TB6612FNG | PWM_TB6612FNG | STBY_TB6612FNG.
Inductive Level := LOW | HIGH.
Inductive Property := FocusAbsPosNP | FocusRelPosNP | FocusTimerNP | FocusSpeedNP.

Inductive Event :=
| EvDigitalWrite (p : Pin) (l : Level)
| EvUsleep (t : Z)
| EvSetTimer (ms : Z)
| EvIDMessage (msg : string)
| EvIDSetNumber (p : Property) (msg : option string).

Definition IPState_eqb (a b : IPState) : bool :=
  match a, b with
  | IPS_IDLE, IPS_IDLE | IPS_OK, IPS_OK
  | IPS_BUSY, IPS_BUSY | IPS_ALERT, IPS_ALERT => true
  | _, _ => false
  end.

(** An INDI [INumber]: the fields of it the driver reads or writes. *)
Record INumber := mkINumber { value : Z; min : Z; max : Z }.

(** The four output lines of the board. *)
Record Pins := mkPins { in1 : Level; in2 : Level; pwm : Level; stby : Level }.

(** The state of the driver.  The current [focuser_rob.h] declares
    [uint32_t gTicksElapsed], [uint16_t gPollTimerMs],
    [uint32_t gTicksRequired] and [bool gDirectionIsOutward]; the number
    vectors and their lights are inherited from [INDI::Focuser].  The
    counters are kept within their types by the functions that write
    them ([wrap32], [double_to_uint16]).  [gpio] is the level last written
    to each output line and [isConnected] the connection flag kept by the
    INDI base class. *)
Record FocuserRob := mkFocuserRob {
  FocusAbsPosN : INumber;
  FocusRelPosN : INumber;
  FocusSpeedN : INumber;
  FocusTimerNP_s : IPState;
  FocusAbsPosNP_s : IPState;
  FocusRelPosNP_s : IPState;
  FocusSpeedNP_s : IPState;
  gTicksElapsed : Z;
  gTicksRequired : Z;
  gPollTimerMs : Z;
  gDirectionIsOutward : bool;
  gpio : Pins;
  isConnected : bool
}.

Definition MIN_POLL_TIMER_MS : Z := 10.
Definition MIN_PWM_HIGH_TIME_MS : Z := 1.

(** ** Machine arithmetic *)

Definition two32 : Z := 4294967296.
Definition INT32_MIN : Z := -2147483648.
Definition INT32_MAX : Z := 2147483647.

(** Reduction modulo 2^32: unsigned arithmetic and conversion to [uint32_t]
    from an integer type. *)
Definition wrap32 (z : Z) : Z := z mod two32.

(** Conversion of a [uint32_t] to [int32_t] (two's complement). *)
Definition to_int32 (z : Z) : Z :=
  if wrap32 z <=? INT32_MAX then wrap32 z else wrap32 z - two32.

Inductive Fault := DivisionByZero | ConversionOutOfRange | SignedOverflow.

Inductive Res (A : Type) : Type :=
| Ok (a : A)
| Fail (f : Fault).
Arguments Ok {A} a.
Arguments Fail {A} f.

(** ** The driver monad: state, faults and the trace of external calls *)

Definition M (A : Type) : Type := FocuserRob -> Res (A * FocuserRob * list Event).

Definition ret {A} (a : A) : M A := fun s => Ok (a, s, []).

Definition bind {A B} (m : M A) (k : A -> M B) : M B :=
  fun s =>
    match m s with
    | Ok (a, s1, e1) =>
        match k a s1 with
        | Ok (b, s2, e2) => Ok (b, s2, e1 ++ e2)
        | Fail f => Fail f
        end
    | Fail f => Fail f
    end.

Definition fault {A} (f : Fault) : M A := fun _ => Fail f.
Definition get : M FocuserRob := fun s => Ok (s, s, []).
Definition modify (f : FocuserRob -> FocuserRob) : M unit := fun s => Ok (tt, f s, []).
Definition emit (e : Event) : M unit := fun s => Ok (tt, s, [e]).

Notation "x <- m ;; k" := (bind m (fun x => k))
  (at level 61, m at next level, right associativity).
Notation "m ;; k" := (bind m (fun _ => k))
  (at level 61, right associativity).

(** Checked conversions and signed operations. *)
Definition double_to_int32 (d : Z) : M Z :=
  if (INT32_MIN <=? d) && (d <=? INT32_MAX) then ret d else fault ConversionOutOfRange.

Definition double_to_uint32 (d : Z) : M Z :=
  if (0 <=? d) && (d <? two32) then ret d else fault ConversionOutOfRange.

Definition double_to_uint16 (d : Z) : M Z :=
  if (0 <=? d) && (d <? 65536) then ret d else fault ConversionOutOfRange.

Definition int32_checked (z : Z) : M Z :=
  if (INT32_MIN <=? z) && (z <=? INT32_MAX) then ret z else fault SignedOverflow.

(** [1000 / FocusSpeedN[0].value] converted to [uint16_t].  The quotient of
    the double division is truncated by the conversion; for an integral
    divisor that is [Z.quot].  A zero divisor has no inter-step delay. *)
Definition delay_of_speed (speed : Z) : M Z :=
  if speed =? 0 then fault DivisionByZero
  else double_to_uint16 (Z.quot 1000 speed).

(** ** Field updates *)

Definition set_value (v : Z) (n : INumber) : INumber :=
  mkINumber v (min n) (max n).

Definition with_FocusAbsPosN (n : INumber) (s : FocuserRob) : FocuserRob :=
  mkFocuserRob n (FocusRelPosN s) (FocusSpeedN s) (FocusTimerNP_s s)
    (FocusAbsPosNP_s s) (FocusRelPosNP_s s) (FocusSpeedNP_s s) (gTicksElapsed s)
    (gTicksRequired s) (gPollTimerMs s) (gDirectionIsOutward s) (gpio s) (isConnected s).

Definition with_FocusRelPosN (n : INumber) (s : FocuserRob) : FocuserRob :=
  mkFocuserRob (FocusAbsPosN s) n (FocusSpeedN s) (FocusTimerNP_s s)
    (FocusAbsPosNP_s s) (FocusRelPosNP_s s) (FocusSpeedNP_s s) (gTicksElapsed s)
    (gTicksRequired s) (gPollTimerMs s) (gDirectionIsOutward s) (gpio s) (isConnected s).

Definition with_FocusSpeedN (n : INumber) (s : FocuserRob) : FocuserRob :=
  mkFocuserRob (FocusAbsPosN s) (FocusRelPosN s) n (FocusTimerNP_s s)
    (FocusAbsPosNP_s s) (FocusRelPosNP_s s) (FocusSpeedNP_s s) (gTicksElapsed s)
    (gTicksRequired s) (gPollTimerMs s) (gDirectionIsOutward s) (gpio s) (isConnected s).

Definition with_status (t a r : IPState) (s : FocuserRob) : FocuserRob :=
  mkFocuserRob (FocusAbsPosN s) (FocusRelPosN s) (FocusSpeedN s) t a r
    (FocusSpeedNP_s s) (gTicksElapsed s)
    (gTicksRequired s) (gPollTimerMs s) (gDirectionIsOutward s) (gpio s) (isConnected s).

Definition with_FocusSpeedNP_s (p : IPState) (s : FocuserRob) : FocuserRob :=
  mkFocuserRob (FocusAbsPosN s) (FocusRelPosN s) (FocusSpeedN s) (FocusTimerNP_s s)
    (FocusAbsPosNP_s s) (FocusRelPosNP_s s) p (gTicksElapsed s)
    (gTicksRequired s) (gPollTimerMs s) (gDirectionIsOutward s) (gpio s) (isConnected s).

Definition with_gTicksElapsed (z : Z) (s : FocuserRob) : FocuserRob :=
  mkFocuserRob (FocusAbsPosN s) (FocusRelPosN s) (FocusSpeedN s) (FocusTimerNP_s s)
    (FocusAbsPosNP_s s) (FocusRelPosNP_s s) (FocusSpeedNP_s s) z
    (gTicksRequired s) (gPollTimerMs s) (gDirectionIsOutward s) (gpio s) (isConnected s).

Definition with_gTicksRequired (z : Z) (s : FocuserRob) : FocuserRob :=
  mkFocuserRob (FocusAbsPosN s) (FocusRelPosN s) (FocusSpeedN s) (FocusTimerNP_s s)
    (FocusAbsPosNP_s s) (FocusRelPosNP_s s) (FocusSpeedNP_s s) (gTicksElapsed s)
    z (gPollTimerMs s) (gDirectionIsOutward s) (gpio s) (isConnected s).

Definition with_gPollTimerMs (z : Z) (s : FocuserRob) : FocuserRob :=
  mkFocuserRob (FocusAbsPosN s) (FocusRelPosN s) (FocusSpeedN s) (FocusTimerNP_s s)
    (FocusAbsPosNP_s s) (FocusRelPosNP_s s) (FocusSpeedNP_s s) (gTicksElapsed s)
    (gTicksRequired s) z (gDirectionIsOutward s) (gpio s) (isConnected s).

Definition with_gDirectionIsOutward (b : bool) (s : FocuserRob) : FocuserRob :=
  mkFocuserRob (FocusAbsPosN s) (FocusRelPosN s) (FocusSpeedN s) (FocusTimerNP_s s)
    (FocusAbsPosNP_s s) (FocusRelPosNP_s s) (FocusSpeedNP_s s) (gTicksElapsed s)
    (gTicksRequired s) (gPollTimerMs s) b (gpio s) (isConnected s).

Definition with_gpio (p : Pins) (s : FocuserRob) : FocuserRob :=
  mkFocuserRob (FocusAbsPosN s) (FocusRelPosN s) (FocusSpeedN s) (FocusTimerNP_s s)
    (FocusAbsPosNP_s s) (FocusRelPosNP_s s) (FocusSpeedNP_s s) (gTicksElapsed s)
    (gTicksRequired s) (gPollTimerMs s) (gDirectionIsOutward s) p (isConnected s).

Definition with_isConnected (b : bool) (s : FocuserRob) : FocuserRob :=
  mkFocuserRob (FocusAbsPosN s) (FocusRelPosN s) (FocusSpeedN s) (FocusTimerNP_s s)
    (FocusAbsPosNP_s s) (FocusRelPosNP_s s) (FocusSpeedNP_s s) (gTicksElapsed s)
    (gTicksRequired s) (gPollTimerMs s) (gDirectionIsOutward s) (gpio s) b.

Definition write_pin (p : Pin) (l : Level) (g : Pins) : Pins :=
  match p with
  | IN1_TB6612FNG => mkPins l (in2 g) (pwm g) (stby g)
  | IN2_TB6612FNG => mkPins (in1 g) l (pwm g) (stby g)
  | PWM_TB6612FNG => mkPins (in1 g) (in2 g) l (stby g)
  | STBY_TB6612FNG => mkPins (in1 g) (in2 g) (pwm g) l
  end.

(** ** External calls *)

Definition digitalWrite (p : Pin) (l : Level) : M unit :=
  modify (fun s => with_gpio (write_pin p l (gpio s)) s) ;; emit (EvDigitalWrite p l).

Definition usleep (t : Z) : M unit := emit (EvUsleep t).
Definition SetTimer (ms : Z) : M unit := emit (EvSetTimer ms).
Definition IDMessage (msg : string) : M unit := emit (EvIDMessage msg).
Definition IDSetNumber (p : Property) (msg : option string) : M unit :=
  emit (EvIDSetNumber p msg).

(** ** Private functions of the focuser *)

(** Move by one tick, keeping the PWM output high for the given time. *)
Definition oneTick (highTimeMs : Z) : M unit :=
  digitalWrite PWM_TB6612FNG HIGH ;;
  usleep highTimeMs ;;
  digitalWrite PWM_TB6612FNG LOW.

(** Set the motor in the correct direction. *)
Definition setDirection (isOutward : bool) : M unit :=
  modify (with_gDirectionIsOutward false) ;;
  if isOutward then
    modify (with_gDirectionIsOutward true) ;;
    digitalWrite IN1_TB6612FNG LOW ;;
    digitalWrite IN2_TB6612FNG HIGH
  else
    digitalWrite IN1_TB6612FNG HIGH ;;
    digitalWrite IN2_TB6612FNG LOW.

Definition setShortBreak : M unit :=
  digitalWrite IN1_TB6612FNG HIGH ;;
  digitalWrite IN2_TB6612FNG HIGH.

(** Set the motor into stop mode. *)
Definition setStop : M unit :=
  digitalWrite PWM_TB6612FNG LOW ;;
  digitalWrite IN1_TB6612FNG LOW ;;
  digitalWrite IN2_TB6612FNG LOW ;;
  digitalWrite PWM_TB6612FNG HIGH.

(** Set the motor into standby, or take it out. *)
Definition setStandby (isOn : bool) : M unit :=
  if isOn then digitalWrite STBY_TB6612FNG LOW
  else digitalWrite STBY_TB6612FNG HIGH.

(** Calculate the new position after a move.  The parameter is an
    [int32_t]; negating [INT32_MIN] overflows. *)
Definition setVariablesAfterMove (relativeTicks : Z) : M unit :=
  s <- get ;;
  relativeTicks <- (if gDirectionIsOutward s
                    then int32_checked (- relativeTicks)
                    else ret relativeTicks) ;;
  modify (fun s => with_FocusAbsPosN
                     (set_value (value (FocusAbsPosN s) + relativeTicks) (FocusAbsPosN s)) s) ;;
  modify (fun s => with_FocusRelPosN (set_value relativeTicks (FocusRelPosN s)) s) ;;
  IDSetNumber FocusAbsPosNP None ;;
  IDSetNumber FocusRelPosNP None.

(** Stop the focuser. *)
Definition AbortFocuser : M bool :=
  setStop ;;
  setStandby true ;;
  s <- get ;;
  (if 0 <? gTicksRequired s then
     setVariablesAfterMove (to_int32 (wrap32 (gTicksRequired s - gTicksElapsed s))) ;;
     modify (with_gTicksRequired 0)
   else ret tt) ;;
  modify (with_status IPS_IDLE IPS_IDLE IPS_IDLE) ;;
  IDSetNumber FocusTimerNP None ;;
  IDSetNumber FocusAbsPosNP None ;;
  IDSetNumber FocusRelPosNP None ;;
  ret true.

(** The loop of the synchronous path: one pulse and a blocking wait per
    iteration, [n] iterations. *)
Fixpoint tick_loop (n : nat) : M unit :=
  match n with
  | O => ret tt
  | S n' =>
      oneTick MIN_PWM_HIGH_TIME_MS ;;
      usleep (MIN_POLL_TIMER_MS - MIN_PWM_HIGH_TIME_MS) ;;
      tick_loop n'
  end.

(** Move the focuser by a given number of ticks.  A positive number
    indicates inward focus. *)
Definition move (relativeTicks : Z) : M IPState :=
  s <- get ;;
  delayMs <- delay_of_speed (value (FocusSpeedN s)) ;;
  (if negb (gTicksRequired s =? 0) then AbortFocuser ;; ret tt else ret tt) ;;
  IDMessage "Moving to requested position..."%string ;;
  setDirection (relativeTicks <? 0) ;;
  s <- get ;;
  relativeTicks <- (if gDirectionIsOutward s
                    then int32_checked (- relativeTicks)
                    else ret relativeTicks) ;;
  setStandby false ;;
  if delayMs <? MIN_POLL_TIMER_MS then
    tick_loop (Z.to_nat relativeTicks) ;;
    setStop ;;
    setStandby true ;;
    setVariablesAfterMove relativeTicks ;;
    ret IPS_OK
  else
    modify (with_gPollTimerMs delayMs) ;;
    modify (with_gTicksRequired (wrap32 relativeTicks)) ;;
    SetTimer delayMs ;;
    oneTick MIN_PWM_HIGH_TIME_MS ;;
    modify (with_gTicksElapsed 1) ;;
    ret IPS_BUSY.

(** ** Public functions of the focuser *)

(** Constructor.  [SetFocuserCapability], [wiringXSetup] and [pinMode]
    touch nothing the controller reads back. *)
Definition FocuserRob_ctor : M unit :=
  modify (with_gTicksElapsed 0) ;;
  modify (with_gTicksRequired 0) ;;
  modify (with_gDirectionIsOutward false) ;;
  setStop ;;
  setStandby true.

Definition Connect : M bool :=
  IDMessage "Connected."%string ;;
  ret true.

(** Initialise properties: speed in ticks per second, position in ticks.
    The function first calls [INDI::Focuser::initProperties()], which is
    not under src/.  Here that call is taken to leave the modelled state
    as it is; the states the driver starts from are quantified over every
    prior state, the lights and the connection flag included.
    [initProperties_with] below has the call as a parameter. *)
Definition initProperties : M bool :=
  modify (with_FocusSpeedN (mkINumber 100 1 255)) ;;
  modify (with_FocusAbsPosN (mkINumber (Z.quot (0 + 60000) 2) 0 60000)) ;;
  modify (with_FocusRelPosN (mkINumber 0 0 (Z.quot (0 + 60000) 2))) ;;
  ret true.

(** [initProperties] with the call of the base class as its first
    statement, as in the source; [base] stands for
    [INDI::Focuser::initProperties()]. *)
Definition initProperties_with (base : M bool) : M bool :=
  base ;;
  modify (with_FocusSpeedN (mkINumber 100 1 255)) ;;
  modify (with_FocusAbsPosN (mkINumber (Z.quot (0 + 60000) 2) 0 60000)) ;;
  modify (with_FocusRelPosN (mkINumber 0 0 (Z.quot (0 + 60000) 2))) ;;
  ret true.

Definition is_busy (s : FocuserRob) : bool :=
  IPState_eqb (FocusTimerNP_s s) IPS_BUSY
  || IPState_eqb (FocusAbsPosNP_s s) IPS_BUSY
  || IPState_eqb (FocusRelPosNP_s s) IPS_BUSY.

(** Set speed.  The parameter is an [int]. *)
Definition SetFocuserSpeed (speed : Z) : M bool :=
  s <- get ;;
  current <- double_to_int32 (value (FocusSpeedN s)) ;;
  if negb (speed =? current) then
    if is_busy s then
      IDMessage "Can't set the speed while the motor is running."%string ;;
      ret false
    else if (speed <? min (FocusSpeedN s)) || (speed >? max (FocusSpeedN s)) then
      IDMessage "Error, requested speed is out of range."%string ;;
      ret false
    else
      modify (fun s => with_FocusSpeedN (set_value speed (FocusSpeedN s)) s) ;;
      modify (with_FocusSpeedNP_s IPS_OK) ;;
      IDSetNumber FocusSpeedNP (Some "Speed set."%string) ;;
      ret true
  else ret true.

(** Handle timer expiry: tick the motor along if the speed is low enough. *)
Definition TimerHit : M unit :=
  s <- get ;;
  if isConnected s then
    if 0 <? gTicksRequired s then
      if gTicksElapsed s <? gTicksRequired s then
        SetTimer (gPollTimerMs s) ;;
        oneTick MIN_PWM_HIGH_TIME_MS ;;
        modify (with_gTicksElapsed (wrap32 (gTicksElapsed s + 1)))
      else
        AbortFocuser ;; ret tt
    else ret tt
  else ret tt.

(** The tick count [MoveFocuser] plans from its arguments: the [int]
    product [speed * duration] divided by 1000, then, for an outward move,
    [relativeTicks -= relativeTicks]. *)
Definition planned_relativeTicks (dir : FocusDirection) (speed duration : Z) : M Z :=
  product <- int32_checked (speed * duration) ;;
  let relativeTicks := Z.quot product 1000 in
  match dir with
  | FOCUS_OUTWARD => ret (relativeTicks - relativeTicks)
  | FOCUS_INWARD => ret relativeTicks
  end.

Definition out_of_range (p : Z) (n : INumber) : bool :=
  (p <? min n) || (p >? max n).

(** Handle a request to move the focuser at a given speed (in ticks per
    second) for a given duration (in ms). *)
Definition MoveFocuser (dir : FocusDirection) (speed duration : Z) : M IPState :=
  ok <- SetFocuserSpeed speed ;;
  if ok then
    relativeTicks <- planned_relativeTicks dir speed duration ;;
    s <- get ;;
    let plannedAbsPos := value (FocusAbsPosN s) + relativeTicks in
    if out_of_range plannedAbsPos (FocusAbsPosN s) then
      IDMessage "Error, requested position is out of range."%string ;;
      ret IPS_ALERT
    else move relativeTicks
  else ret IPS_ALERT.

(** Handle a request to move the focuser to a given tick count. *)
Definition MoveAbsFocuser (targetTicks : Z) : M IPState :=
  s <- get ;;
  if negb (targetTicks =? value (FocusAbsPosN s)) then
    if out_of_range targetTicks (FocusAbsPosN s) then
      IDMessage "Error, requested position is out of range."%string ;;
      ret IPS_ALERT
    else
      relativeTicks <- double_to_int32 (targetTicks - value (FocusAbsPosN s)) ;;
      move relativeTicks
  else ret IPS_ALERT.

(** The target of a relative move: [ticks * (dir == FOCUS_INWARD ? -1 : 1)]
    is an unsigned 32-bit product (the [int] factor is converted to
    [uint32_t]), the sum with the position is a [double], and the result is
    converted to [uint32_t]. *)
Definition MoveRelFocuser_target (dir : FocusDirection) (ticks : Z) : M Z :=
  s <- get ;;
  let factor := match dir with FOCUS_INWARD => wrap32 (-1) | FOCUS_OUTWARD => 1 end in
  double_to_uint32 (value (FocusAbsPosN s) + wrap32 (ticks * factor)).

(** Handle a request to move the focuser by a number of ticks. *)
Definition MoveRelFocuser (dir : FocusDirection) (ticks : Z) : M IPState :=
  targetTicks <- MoveRelFocuser_target dir ticks ;;
  MoveAbsFocuser targetTicks.

Definition Disconnect : M bool :=
  AbortFocuser ;;
  IDMessage "Disconnected."%string ;;
  ret true.

(** ** The driver as a transition system *)

(** The requests the framework delivers.  [OpSetStatus] is the framework
    writing the light of the timer, absolute and relative position
    properties (it stores there what a move request returned). *)
Inductive Op :=
| OpConnect
| OpDisconnect
| OpSetFocuserSpeed (speed : Z)
| OpTimerHit
| OpMoveFocuser (dir : FocusDirection) (speed duration : Z)
| OpMoveAbsFocuser (targetTicks : Z)
| OpMoveRelFocuser (dir : FocusDirection) (ticks : Z)
| OpAbortFocuser
| OpSetStatus (t a r : IPState).

(** Arguments within the range of their C++ type. *)
Definition wf_op (o : Op) : Prop :=
  match o with
  | OpSetFocuserSpeed speed => INT32_MIN <= speed <= INT32_MAX
  | OpMoveFocuser _ speed duration =>
      INT32_MIN <= speed <= INT32_MAX /\ 0 <= duration < 65536
  | OpMoveAbsFocuser targetTicks => 0 <= targetTicks < two32
  | OpMoveRelFocuser _ ticks => 0 <= ticks < two32
  | _ => True
  end.

Definition run_op (o : Op) : M unit :=
  match o with
  | OpConnect => ok <- Connect ;; modify (with_isConnected ok)
  | OpDisconnect => ok <- Disconnect ;; modify (with_isConnected (negb ok))
  | OpSetFocuserSpeed speed => SetFocuserSpeed speed ;; ret tt
  | OpTimerHit => TimerHit
  | OpMoveFocuser dir speed duration => MoveFocuser dir speed duration ;; ret tt
  | OpMoveAbsFocuser targetTicks => MoveAbsFocuser targetTicks ;; ret tt
  | OpMoveRelFocuser dir ticks => MoveRelFocuser dir ticks ;; ret tt
  | OpAbortFocuser => AbortFocuser ;; ret tt
  | OpSetStatus t a r => modify (with_status t a r)
  end.

(** State of the driver once constructed and initialised, from whatever
    the memory and the output lines held before. *)
Definition startup : M unit :=
  FocuserRob_ctor ;; initProperties ;; ret tt.

Definition state_of {A} (r : Res (A * FocuserRob * list Event)) (d : FocuserRob) : FocuserRob :=
  match r with
  | Ok (_, s, _) => s
  | Fail _ => d
  end.

Inductive reachable : FocuserRob -> Prop :=
| reachable_startup pre s evs :
    startup pre = Ok (tt, s, evs) -> reachable s
| reachable_step s o s' evs :
    reachable s -> wf_op o -> run_op o s = Ok (tt, s', evs) -> reachable s'.

(** ** Observations *)

Definition position (s : FocuserRob) : Z := value (FocusAbsPosN s).
Definition lastRelativeDelta (s : FocuserRob) : Z := value (FocusRelPosN s).
Definition speed_of (s : FocuserRob) : Z := value (FocusSpeedN s).

(** The session test of the code: [gTicksRequired != 0]. *)
Definition session_active (s : FocuserRob) : Prop := gTicksRequired s <> 0.

(** Lines as [setStop] followed by [setStandby(true)] leaves them. *)
Definition idle_pins : Pins := mkPins LOW LOW HIGH LOW.

Definition all_idle (s : FocuserRob) : Prop :=
  FocusTimerNP_s s = IPS_IDLE /\ FocusAbsPosNP_s s = IPS_IDLE /\ FocusRelPosNP_s s = IPS_IDLE.

(** A state to run examples on: the driver started from cleared memory. *)
Definition blank : FocuserRob :=
  mkFocuserRob (mkINumber 0 0 0) (mkINumber 0 0 0) (mkINumber 0 0 0)
    IPS_IDLE IPS_IDLE IPS_IDLE IPS_IDLE 0 0 0 false (mkPins LOW LOW LOW LOW) false.

Definition initial : FocuserRob := state_of (startup blank) blank.

Definition session_inv (s : FocuserRob) : Prop :=
  0 <= gTicksRequired s <= INT32_MAX /\
  0 <= gTicksElapsed s < two32 /\
  (session_active s -> 0 <= gTicksElapsed s <= gTicksRequired s).

Definition signed_by_direction (s : FocuserRob) (ticks : Z) : Z :=
  if gDirectionIsOutward s then - ticks else ticks.

Definition stop_events : list Event :=
  [EvDigitalWrite PWM_TB6612FNG LOW; EvDigitalWrite IN1_TB6612FNG LOW;
   EvDigitalWrite IN2_TB6612FNG LOW; EvDigitalWrite PWM_TB6612FNG HIGH;
   EvDigitalWrite STBY_TB6612FNG LOW].

Definition idset_events : list Event :=
  [EvIDSetNumber FocusTimerNP None; EvIDSetNumber FocusAbsPosNP None;
   EvIDSetNumber FocusRelPosNP None].

(** What [setVariablesAfterMove] does to the two position numbers. *)
Definition moved_by (d : Z) (s : FocuserRob) : FocuserRob :=
  with_FocusRelPosN (set_value d (FocusRelPosN s))
    (with_FocusAbsPosN (set_value (value (FocusAbsPosN s) + d) (FocusAbsPosN s)) s).

(** The state [AbortFocuser] leaves when a session is active. *)
Definition finalized (s : FocuserRob) : FocuserRob :=
  with_status IPS_IDLE IPS_IDLE IPS_IDLE
    (with_gTicksRequired 0
       (moved_by (signed_by_direction s (gTicksRequired s - gTicksElapsed s))
          (with_gpio idle_pins s))).

(** The external calls of one [oneTick], and of [n] rounds of the
    synchronous loop. *)
Definition pulse_events : list Event :=
  [EvDigitalWrite PWM_TB6612FNG HIGH; EvUsleep MIN_PWM_HIGH_TIME_MS;
   EvDigitalWrite PWM_TB6612FNG LOW].

Fixpoint pulse_train (n : nat) : list Event :=
  match n with
  | O => []
  | S n' => pulse_events ++ EvUsleep (MIN_POLL_TIMER_MS - MIN_PWM_HIGH_TIME_MS) :: pulse_train n'
  end.

Definition direction_events (isOutward : bool) : list Event :=
  if isOutward
  then [EvDigitalWrite IN1_TB6612FNG LOW; EvDigitalWrite IN2_TB6612FNG HIGH]
  else [EvDigitalWrite IN1_TB6612FNG HIGH; EvDigitalWrite IN2_TB6612FNG LOW].

(** Number of rising edges written to the pulse line in a trace. *)
Definition is_pulse_rise (e : Event) : bool :=
  match e with
  | EvDigitalWrite PWM_TB6612FNG HIGH => true
  | _ => false
  end.

(** The state a new move starts from: [move] first finalizes a session
    that is in flight. *)
Definition prepared (s : FocuserRob) : FocuserRob :=
  if gTicksRequired s =? 0 then s else finalized s.

Definition prepare_events (s : FocuserRob) : list Event :=
  if gTicksRequired s =? 0 then []
  else stop_events ++ [EvIDSetNumber FocusAbsPosNP None; EvIDSetNumber FocusRelPosNP None]
         ++ idset_events.

(** The part of [move] that follows the finalization of an in-flight
    session, with the delay already computed. *)
Definition move_from (delayMs relativeTicks : Z) : M IPState :=
  IDMessage "Moving to requested position..."%string ;;
  setDirection (relativeTicks <? 0) ;;
  s <- get ;;
  relativeTicks <- (if gDirectionIsOutward s
                    then int32_checked (- relativeTicks)
                    else ret relativeTicks) ;;
  setStandby false ;;
  if delayMs <? MIN_POLL_TIMER_MS then
    tick_loop (Z.to_nat relativeTicks) ;;
    setStop ;;
    setStandby true ;;
    setVariablesAfterMove relativeTicks ;;
    ret IPS_OK
  else
    modify (with_gPollTimerMs delayMs) ;;
    modify (with_gTicksRequired (wrap32 relativeTicks)) ;;
    SetTimer delayMs ;;
    oneTick MIN_PWM_HIGH_TIME_MS ;;
    modify (with_gTicksElapsed 1) ;;
    ret IPS_BUSY.

Definition move_prefix_events (relativeTicks : Z) : list Event :=
  EvIDMessage "Moving to requested position..."%string
    :: direction_events (relativeTicks <? 0) ++ [EvDigitalWrite STBY_TB6612FNG HIGH].

Definition running_pins (isOutward : bool) : Pins :=
  if isOutward then mkPins LOW HIGH LOW HIGH else mkPins HIGH LOW LOW HIGH.

(** The configured speed lies within the limits [initProperties] sets. *)
Definition speed_inv (s : FocuserRob) : Prop :=
  min (FocusSpeedN s) = 1 /\ max (FocusSpeedN s) = 255 /\ 1 <= speed_of s <= 255.

Definition inv (s : FocuserRob) : Prop := speed_inv s /\ session_inv s.

(** The three move requests of the public interface. *)
Inductive MoveRequest :=
| ReqMoveFocuser (dir : FocusDirection) (speed duration : Z)
| ReqMoveAbsFocuser (targetTicks : Z)
| ReqMoveRelFocuser (dir : FocusDirection) (ticks : Z).

Definition submit (q : MoveRequest) : M IPState :=
  match q with
  | ReqMoveFocuser dir speed duration => MoveFocuser dir speed duration
  | ReqMoveAbsFocuser targetTicks => MoveAbsFocuser targetTicks
  | ReqMoveRelFocuser dir ticks => MoveRelFocuser dir ticks
  end.

(** The rejection conditions of the code: a speed of zero or outside the
    speed limits, or a target (the planned position of a timed move, the
    target of an absolute move, the computed target of a relative move)
    outside the position limits. *)
Definition rejected (s : FocuserRob) (q : MoveRequest) : Prop :=
  match q with
  | ReqMoveFocuser dir speed duration =>
      speed = 0 \/ speed < min (FocusSpeedN s) \/ speed > max (FocusSpeedN s) \/
      exists relativeTicks,
        planned_relativeTicks dir speed duration s = Ok (relativeTicks, s, []) /\
        out_of_range (position s + relativeTicks) (FocusAbsPosN s) = true
  | ReqMoveAbsFocuser targetTicks => out_of_range targetTicks (FocusAbsPosN s) = true
  | ReqMoveRelFocuser dir ticks =>
      exists targetTicks,
        MoveRelFocuser_target dir ticks s = Ok (targetTicks, s, []) /\
        out_of_range targetTicks (FocusAbsPosN s) = true
  end.

(** Running a list of requests, for examples. *)
Fixpoint run_ops (os : list Op) (s : FocuserRob) : FocuserRob :=
  match os with
  | [] => s
  | o :: os' => run_ops os' (state_of (run_op o s) s)
  end.

(** A session in flight: at one tick per second, 5 ticks requested, the
    first pulse issued by the request and two more by the timer. *)
Definition in_flight : FocuserRob :=
  run_ops [OpConnect; OpSetFocuserSpeed 1; OpMoveAbsFocuser 30005; OpTimerHit; OpTimerHit]
    initial.

(** The started driver set to 200 ticks per second (a delay of 5 ms). *)
Definition fast : FocuserRob := run_ops [OpSetFocuserSpeed 200] initial.

(** The session in flight, with the absolute-position light set to busy
    by the framework. *)
Definition busy_in_flight : FocuserRob :=
  run_ops [OpSetStatus IPS_IDLE IPS_BUSY IPS_IDLE] in_flight.

(** [k] timer callbacks in a row, as the framework delivers them. *)
Fixpoint timer_hits (k : nat) : M unit :=
  match k with
  | O => ret tt
  | S k' => TimerHit ;; timer_hits k'
  end.

(** The external calls of [k] callbacks that each advance a session: the
    timer armed again for [ms] and one pulse. *)
Fixpoint timer_train (ms : Z) (k : nat) : list Event :=
  match k with
  | O => []
  | S k' => EvSetTimer ms :: pulse_events ++ timer_train ms k'
  end.

(** The output lines between two requests: stop and standby, or out of
    standby with the direction lines set as [gDirectionIsOutward] says and
    the pulse line low; the latter whenever a session is active. *)
Definition lines_inv (s : FocuserRob) : Prop :=
  (gpio s = idle_pins \/ gpio s = running_pins (gDirectionIsOutward s)) /\
  (session_active s -> gpio s = running_pins (gDirectionIsOutward s)).

(** The limits [initProperties] configures. *)
Definition limits_inv (s : FocuserRob) : Prop :=
  min (FocusAbsPosN s) = 0 /\ max (FocusAbsPosN s) = 60000 /\
  min (FocusRelPosN s) = 0 /\ max (FocusRelPosN s) = 30000 /\
  min (FocusSpeedN s) = 1 /\ max (FocusSpeedN s) = 255.

(** Every interval a trace arms the timer for is between the granularity
    and one second. *)
Definition timer_event_ok (e : Event) : Prop :=
  match e with
  | EvSetTimer ms => MIN_POLL_TIMER_MS <= ms <= 1000
  | _ => True
  end.

Definition poll_inv (s : FocuserRob) : Prop :=
  session_active s -> MIN_POLL_TIMER_MS <= gPollTimerMs s <= 1000.

(** What the driver keeps besides [inv]: the state of the lines, the
    configured limits and the interval of an active session. *)
Definition ext_inv (s : FocuserRob) : Prop :=
  lines_inv s /\ limits_inv s /\ poll_inv s.

(** Requests whose arithmetic stays within the C++ types in state [s]:
    all but a relative move, whose target may not fit [uint32_t], and an
    absolute move whose distance from the position does not fit
    [int32_t]. *)
Definition arithmetic_safe (s : FocuserRob) (o : Op) : Prop :=
  match o with
  | OpMoveAbsFocuser targetTicks => INT32_MIN < targetTicks - position s <= INT32_MAX
  | OpMoveRelFocuser _ _ => False
  | _ => True
  end.

(** Construction followed by [initProperties_with base]. *)
Definition startup_with (base : M bool) : M unit :=
  FocuserRob_ctor ;; initProperties_with base ;; ret tt.

(** What a base class can be relied on for: its [initProperties] returns
    and does not reach the private members of the driver or the output
    lines.  Numbers, lights and the connection flag are its to write. *)
Definition leaves_driver_members (base : M bool) : Prop :=
  forall s, exists r s' evs,
    base s = Ok (r, s', evs) /\
    gTicksElapsed s' = gTicksElapsed s /\ gTicksRequired s' = gTicksRequired s /\
    gDirectionIsOutward s' = gDirectionIsOutward s /\ gpio s' = gpio s.

(** The state after a timed move that plans no tick: one tick per second
    for half a second, on the freshly started driver. *)
Definition zero_tick_move : FocuserRob :=
  run_ops [OpMoveFocuser FOCUS_INWARD 1 500] initial.

(** A state with the position below zero: three absolute moves in a row at
    the default speed, each replacing the session of the one before. *)
Definition below_zero : FocuserRob :=
  run_ops [OpMoveAbsFocuser 0; OpMoveAbsFocuser 1; OpMoveAbsFocuser 2] initial.

Ltac unfold_driver :=
  unfold AbortFocuser, setVariablesAfterMove, setStop, setStandby, setDirection,
    oneTick, digitalWrite, usleep, SetTimer, IDMessage, IDSetNumber,
    int32_checked, double_to_int32, double_to_uint32, double_to_uint16,
    bind, ret, get, modify, emit, fault.

Ltac solve_wf := unfold wf_op, two32, INT32_MIN, INT32_MAX; first [exact I | lia].

Ltac split_ifs :=
  repeat match goal with
         | |- context [if ?c then _ else _] => destruct c; cbn
         end.

Ltac ext_auto :=
  repeat split;
  first [tauto | lia | left; reflexivity | right; reflexivity | congruence | idtac].

Lemma to_int32_small z : 0 <= z <= INT32_MAX -> to_int32 (wrap32 z) = z.
Proof.
  intros H. unfold to_int32, wrap32, INT32_MAX, two32 in *.
  rewrite Z.mod_mod by lia. rewrite Z.mod_small by lia.
  destruct (z <=? 2147483647) eqn:E; [reflexivity | apply Z.leb_gt in E; lia].
Qed.

Lemma AbortFocuser_idle s :
  gTicksRequired s = 0 ->
  AbortFocuser s =
  Ok (true, with_status IPS_IDLE IPS_IDLE IPS_IDLE (with_gpio idle_pins s),
      stop_events ++ [EvIDSetNumber FocusTimerNP None; EvIDSetNumber FocusAbsPosNP None;
                      EvIDSetNumber FocusRelPosNP None]).
Proof.
  intros H. destruct s; cbn in *. subst. reflexivity.
Qed.

Lemma AbortFocuser_active s :
  session_inv s -> gTicksRequired s <> 0 ->
  AbortFocuser s =
  Ok (true, finalized s,
      stop_events ++ [EvIDSetNumber FocusAbsPosNP None; EvIDSetNumber FocusRelPosNP None]
        ++ idset_events).
Proof.
  intros (Hr & He & Hs) Hne. specialize (Hs Hne).
  unfold AbortFocuser. unfold_driver.
  destruct s as [a r sp t1 t2 t3 t4 el req poll out g c]; cbn in *.
  assert (Hpos : (0 <? req) = true) by (apply Z.ltb_lt; lia).
  rewrite Hpos. rewrite to_int32_small by (unfold INT32_MAX in *; lia).
  destruct out; cbn.
  - assert (Hc : (INT32_MIN <=? - (req - el)) && (- (req - el) <=? INT32_MAX) = true).
    { unfold INT32_MIN, INT32_MAX in *. apply andb_true_iff. split; apply Z.leb_le; lia. }
    rewrite Hc. reflexivity.
  - reflexivity.
Qed.

Lemma AbortFocuser_total s :
  session_inv s ->
  exists evs, AbortFocuser s =
    Ok (true, if gTicksRequired s =? 0
              then with_status IPS_IDLE IPS_IDLE IPS_IDLE (with_gpio idle_pins s)
              else finalized s, evs).
Proof.
  intros H. destruct (gTicksRequired s =? 0) eqn:E.
  - apply Z.eqb_eq in E. eexists. apply AbortFocuser_idle; exact E.
  - apply Z.eqb_neq in E. eexists. apply AbortFocuser_active; assumption.
Qed.

Lemma tick_loop_run n s :
  exists p, tick_loop n s =
    Ok (tt, with_gpio (mkPins (in1 (gpio s)) (in2 (gpio s)) p (stby (gpio s))) s,
        pulse_train n).
Proof.
  revert s. induction n as [|n IH]; intros s.
  - exists (pwm (gpio s)). destruct s as [a r sp t1 t2 t3 t4 el req poll out [g1 g2 g3 g4] c].
    reflexivity.
  - cbn [tick_loop]. unfold_driver.
    destruct s as [a r sp t1 t2 t3 t4 el req poll out [g1 g2 g3 g4] c]; cbn.
    match goal with |- context [tick_loop n ?s0] => destruct (IH s0) as [p Hp]; rewrite Hp end.
    exists p. reflexivity.
Qed.

Lemma bind_get {B} (k : FocuserRob -> M B) s : bind get k s = k s s.
Proof.
  unfold bind, get. destruct (k s s) as [[[b s2] e2]|]; reflexivity.
Qed.

Lemma move_unfold relativeTicks s :
  move relativeTicks s =
  (delayMs <- delay_of_speed (value (FocusSpeedN s)) ;;
   (if negb (gTicksRequired s =? 0) then AbortFocuser ;; ret tt else ret tt) ;;
   move_from delayMs relativeTicks) s.
Proof. unfold move. rewrite bind_get. reflexivity. Qed.

Lemma delay_of_speed_ok speed s :
  1 <= speed ->
  delay_of_speed speed s = Ok (Z.quot 1000 speed, s, []).
Proof.
  intros H. unfold delay_of_speed, double_to_uint16, fault, ret.
  assert (E : (speed =? 0) = false) by (apply Z.eqb_neq; lia). rewrite E.
  assert (0 <= Z.quot 1000 speed <= 1000).
  { split. apply Z.quot_pos; lia.
    rewrite Z.quot_div_nonneg by lia.
    apply Z.div_le_upper_bound; nia. }
  assert (E2 : (0 <=? Z.quot 1000 speed) && (Z.quot 1000 speed <? 65536) = true).
  { apply andb_true_iff; split; [apply Z.leb_le | apply Z.ltb_lt]; lia. }
  rewrite E2. reflexivity.
Qed.

Lemma move_prepare s :
  session_inv s ->
  (if negb (gTicksRequired s =? 0) then AbortFocuser ;; ret tt else ret tt) s =
  Ok (tt, prepared s, prepare_events s).
Proof.
  intros H. unfold prepared, prepare_events.
  destruct (gTicksRequired s =? 0) eqn:E; cbn [negb]; [reflexivity|].
  apply Z.eqb_neq in E. unfold bind. rewrite (AbortFocuser_active s H E).
  unfold ret. rewrite app_nil_r. reflexivity.
Qed.

Lemma move_from_sync delayMs relativeTicks s :
  delayMs < MIN_POLL_TIMER_MS ->
  INT32_MIN < relativeTicks <= INT32_MAX ->
  move_from delayMs relativeTicks s =
  Ok (IPS_OK,
      moved_by relativeTicks
        (with_gpio idle_pins (with_gDirectionIsOutward (relativeTicks <? 0) s)),
      move_prefix_events relativeTicks
        ++ pulse_train (Z.to_nat (Z.abs relativeTicks))
        ++ stop_events
        ++ [EvIDSetNumber FocusAbsPosNP None; EvIDSetNumber FocusRelPosNP None]).
Proof.
  intros Hd Hr. unfold move_from, move_prefix_events, direction_events.
  apply Z.ltb_lt in Hd. rewrite Hd. clear Hd.
  unfold_driver.
  destruct s as [a r sp t1 t2 t3 t4 el req poll out [g1 g2 g3 g4] c].
  destruct (relativeTicks <? 0) eqn:En; cbn.
  - apply Z.ltb_lt in En.
    assert (Hc : (INT32_MIN <=? - relativeTicks) && (- relativeTicks <=? INT32_MAX) = true).
    { unfold INT32_MIN, INT32_MAX in *. apply andb_true_iff. split; apply Z.leb_le; lia. }
    rewrite Hc.
    match goal with |- context [tick_loop ?n ?s0] =>
      destruct (tick_loop_run n s0) as [p Hp]; rewrite Hp end.
    cbn.
    assert (Hc' : (INT32_MIN <=? - - relativeTicks) && (- - relativeTicks <=? INT32_MAX) = true).
    { unfold INT32_MIN, INT32_MAX in *. apply andb_true_iff. split; apply Z.leb_le; lia. }
    rewrite Hc'. unfold moved_by; cbn.
    rewrite Z.opp_involutive. rewrite (Z.abs_neq relativeTicks) by lia.
    rewrite <- ?app_assoc. reflexivity.
  - apply Z.ltb_ge in En.
    match goal with |- context [tick_loop ?n ?s0] =>
      destruct (tick_loop_run n s0) as [p Hp]; rewrite Hp end.
    cbn. rewrite (Z.abs_eq relativeTicks) by lia.
    rewrite <- ?app_assoc. reflexivity.
Qed.

Lemma wrap32_small z : 0 <= z <= INT32_MAX -> wrap32 z = z.
Proof.
  intros H. unfold wrap32, two32, INT32_MAX in *. apply Z.mod_small. lia.
Qed.

Lemma move_from_async delayMs relativeTicks s :
  MIN_POLL_TIMER_MS <= delayMs ->
  INT32_MIN < relativeTicks <= INT32_MAX ->
  move_from delayMs relativeTicks s =
  Ok (IPS_BUSY,
      with_gTicksElapsed 1
        (with_gTicksRequired (Z.abs relativeTicks)
           (with_gPollTimerMs delayMs
              (with_gpio (running_pins (relativeTicks <? 0))
                 (with_gDirectionIsOutward (relativeTicks <? 0) s)))),
      move_prefix_events relativeTicks ++ EvSetTimer delayMs :: pulse_events).
Proof.
  intros Hd Hr. unfold move_from, move_prefix_events, direction_events, running_pins.
  apply Z.ltb_ge in Hd. rewrite Hd. clear Hd.
  unfold_driver.
  destruct s as [a r sp t1 t2 t3 t4 el req poll out [g1 g2 g3 g4] c].
  destruct (relativeTicks <? 0) eqn:En; cbn.
  - apply Z.ltb_lt in En.
    assert (Hc : (INT32_MIN <=? - relativeTicks) && (- relativeTicks <=? INT32_MAX) = true).
    { unfold INT32_MIN, INT32_MAX in *. apply andb_true_iff. split; apply Z.leb_le; lia. }
    rewrite Hc. cbn.
    rewrite wrap32_small by (unfold INT32_MIN, INT32_MAX in *; lia).
    rewrite (Z.abs_neq relativeTicks) by lia. reflexivity.
  - apply Z.ltb_ge in En.
    rewrite wrap32_small by (unfold INT32_MIN, INT32_MAX in *; lia).
    rewrite (Z.abs_eq relativeTicks) by lia. reflexivity.
Qed.

Lemma bind_ok {A B} (m : M A) (k : A -> M B) s a s1 e1 :
  m s = Ok (a, s1, e1) ->
  bind m k s = match k a s1 with
               | Ok (b, s2, e2) => Ok (b, s2, e1 ++ e2)
               | Fail f => Fail f
               end.
Proof. intros H. unfold bind. rewrite H. reflexivity. Qed.

Lemma move_sync relativeTicks s :
  session_inv s ->
  1 <= speed_of s ->
  Z.quot 1000 (speed_of s) < MIN_POLL_TIMER_MS ->
  INT32_MIN < relativeTicks <= INT32_MAX ->
  move relativeTicks s =
  Ok (IPS_OK,
      moved_by relativeTicks
        (with_gpio idle_pins (with_gDirectionIsOutward (relativeTicks <? 0) (prepared s))),
      prepare_events s ++ move_prefix_events relativeTicks
        ++ pulse_train (Z.to_nat (Z.abs relativeTicks))
        ++ stop_events
        ++ [EvIDSetNumber FocusAbsPosNP None; EvIDSetNumber FocusRelPosNP None]).
Proof.
  intros Hs Hv Hd Hr. rewrite move_unfold.
  rewrite (bind_ok _ _ _ _ _ _ (delay_of_speed_ok _ s Hv)).
  rewrite (bind_ok _ _ _ _ _ _ (move_prepare s Hs)).
  rewrite (move_from_sync _ _ _ Hd Hr). reflexivity.
Qed.

Lemma move_async relativeTicks s :
  session_inv s ->
  1 <= speed_of s ->
  MIN_POLL_TIMER_MS <= Z.quot 1000 (speed_of s) ->
  INT32_MIN < relativeTicks <= INT32_MAX ->
  move relativeTicks s =
  Ok (IPS_BUSY,
      with_gTicksElapsed 1
        (with_gTicksRequired (Z.abs relativeTicks)
           (with_gPollTimerMs (Z.quot 1000 (speed_of s))
              (with_gpio (running_pins (relativeTicks <? 0))
                 (with_gDirectionIsOutward (relativeTicks <? 0) (prepared s))))),
      prepare_events s ++ move_prefix_events relativeTicks
        ++ EvSetTimer (Z.quot 1000 (speed_of s)) :: pulse_events).
Proof.
  intros Hs Hv Hd Hr. rewrite move_unfold.
  rewrite (bind_ok _ _ _ _ _ _ (delay_of_speed_ok _ s Hv)).
  rewrite (bind_ok _ _ _ _ _ _ (move_prepare s Hs)).
  rewrite (move_from_async _ _ _ Hd Hr). reflexivity.
Qed.

Lemma SetFocuserSpeed_eq speed s :
  INT32_MIN <= speed_of s <= INT32_MAX ->
  SetFocuserSpeed speed s =
  if speed =? speed_of s then Ok (true, s, [])
  else if is_busy s then
    Ok (false, s, [EvIDMessage "Can't set the speed while the motor is running."%string])
  else if out_of_range speed (FocusSpeedN s) then
    Ok (false, s, [EvIDMessage "Error, requested speed is out of range."%string])
  else
    Ok (true, with_FocusSpeedNP_s IPS_OK (with_FocusSpeedN (set_value speed (FocusSpeedN s)) s),
        [EvIDSetNumber FocusSpeedNP (Some "Speed set."%string)]).
Proof.
  intros H. unfold SetFocuserSpeed. rewrite bind_get.
  unfold speed_of in *. unfold double_to_int32.
  assert (Hc : (INT32_MIN <=? value (FocusSpeedN s)) && (value (FocusSpeedN s) <=? INT32_MAX) = true).
  { apply andb_true_iff. split; apply Z.leb_le; lia. }
  rewrite Hc. unfold out_of_range.
  destruct (speed =? value (FocusSpeedN s)) eqn:E1; unfold_driver; rewrite E1; cbn; [reflexivity|].
  destruct (is_busy s); [reflexivity|].
  destruct ((speed <? min (FocusSpeedN s)) || (speed >? max (FocusSpeedN s))); reflexivity.
Qed.

Lemma MoveAbsFocuser_eq targetTicks s :
  MoveAbsFocuser targetTicks s =
  if targetTicks =? position s then Ok (IPS_ALERT, s, [])
  else if out_of_range targetTicks (FocusAbsPosN s) then
    Ok (IPS_ALERT, s, [EvIDMessage "Error, requested position is out of range."%string])
  else (relativeTicks <- double_to_int32 (targetTicks - position s) ;; move relativeTicks) s.
Proof.
  unfold MoveAbsFocuser. rewrite bind_get. unfold position.
  destruct (targetTicks =? value (FocusAbsPosN s)); cbn [negb]; [reflexivity|].
  destruct (out_of_range targetTicks (FocusAbsPosN s)); reflexivity.
Qed.

Lemma TimerHit_eq s :
  TimerHit s =
  if isConnected s then
    if 0 <? gTicksRequired s then
      if gTicksElapsed s <? gTicksRequired s then
        Ok (tt,
            with_gTicksElapsed (wrap32 (gTicksElapsed s + 1))
              (with_gpio (write_pin PWM_TB6612FNG LOW (gpio s)) s),
            EvSetTimer (gPollTimerMs s) :: pulse_events)
      else (AbortFocuser ;; ret tt) s
    else Ok (tt, s, [])
  else Ok (tt, s, []).
Proof.
  unfold TimerHit. rewrite bind_get.
  destruct (isConnected s); [|reflexivity].
  destruct (0 <? gTicksRequired s); [|reflexivity].
  destruct (gTicksElapsed s <? gTicksRequired s); [|reflexivity].
  destruct s as [a r sp t1 t2 t3 t4 el req poll out [g1 g2 g3 g4] c]. reflexivity.
Qed.

Lemma move_from_min delayMs s :
  move_from delayMs INT32_MIN s = Fail SignedOverflow.
Proof.
  unfold move_from. unfold_driver.
  destruct s as [a r sp t1 t2 t3 t4 el req poll out [g1 g2 g3 g4] c]. reflexivity.
Qed.

Lemma move_min s :
  session_inv s -> 1 <= speed_of s -> move INT32_MIN s = Fail SignedOverflow.
Proof.
  intros Hs Hv. rewrite move_unfold.
  rewrite (bind_ok _ _ _ _ _ _ (delay_of_speed_ok _ s Hv)).
  rewrite (bind_ok _ _ _ _ _ _ (move_prepare s Hs)).
  rewrite move_from_min. reflexivity.
Qed.

Lemma prepared_required s : gTicksRequired (prepared s) = 0.
Proof.
  unfold prepared. destruct (gTicksRequired s =? 0) eqn:E; [apply Z.eqb_eq, E | reflexivity].
Qed.

Lemma prepared_speed s : FocusSpeedN (prepared s) = FocusSpeedN s.
Proof. unfold prepared. destruct (gTicksRequired s =? 0); reflexivity. Qed.

Lemma prepared_elapsed s : gTicksElapsed (prepared s) = gTicksElapsed s.
Proof. unfold prepared. destruct (gTicksRequired s =? 0); reflexivity. Qed.

Lemma move_preserves_inv relativeTicks s r s' evs :
  inv s ->
  INT32_MIN <= relativeTicks <= INT32_MAX ->
  move relativeTicks s = Ok (r, s', evs) ->
  inv s'.
Proof.
  intros [Hsp Hse] Hr Hm.
  assert (Hv : 1 <= speed_of s) by (destruct Hsp as (_ & _ & ?); lia).
  destruct (Z.eq_dec relativeTicks INT32_MIN) as [->|Hne].
  { rewrite move_min in Hm by assumption. discriminate. }
  assert (Hr' : INT32_MIN < relativeTicks <= INT32_MAX) by lia.
  destruct (Z_lt_le_dec (Z.quot 1000 (speed_of s)) MIN_POLL_TIMER_MS) as [Hd|Hd].
  - rewrite (move_sync _ _ Hse Hv Hd Hr') in Hm. inversion Hm; subst; clear Hm.
    split.
    + unfold speed_inv, speed_of in *. cbn. rewrite prepared_speed. exact Hsp.
    + unfold session_inv, session_active in *. cbn.
      rewrite prepared_required, prepared_elapsed.
      unfold INT32_MAX. repeat split; try lia.
  - rewrite (move_async _ _ Hse Hv Hd Hr') in Hm. inversion Hm; subst; clear Hm.
    split.
    + unfold speed_inv, speed_of in *. cbn. rewrite prepared_speed. exact Hsp.
    + unfold session_inv, session_active in *. cbn.
      unfold INT32_MIN, INT32_MAX, two32 in *. repeat split; try lia.
Qed.

Lemma AbortFocuser_preserves_inv s r s' evs :
  inv s -> AbortFocuser s = Ok (r, s', evs) -> inv s'.
Proof.
  intros [Hsp Hse] Ha. destruct (AbortFocuser_total s Hse) as [evs' H'].
  rewrite H' in Ha. inversion Ha; subst; clear Ha H'.
  destruct (gTicksRequired s =? 0) eqn:E.
  - apply Z.eqb_eq in E. split; [exact Hsp|].
    unfold session_inv, session_active in *. cbn. exact Hse.
  - split; [exact Hsp|].
    unfold session_inv, session_active in *. cbn. unfold INT32_MAX. repeat split; lia.
Qed.

Lemma SetFocuserSpeed_preserves_inv speed s r s' evs :
  inv s -> SetFocuserSpeed speed s = Ok (r, s', evs) ->
  inv s' /\ (r = true -> speed_of s' = speed).
Proof.
  intros [Hsp Hse] H. pose proof Hsp as (Hmin & Hmax & Hv).
  rewrite SetFocuserSpeed_eq in H by (unfold INT32_MIN, INT32_MAX; lia).
  destruct (speed =? speed_of s) eqn:E1.
  { inversion H; subst. apply Z.eqb_eq in E1.
    split; [split; assumption | intros _; lia]. }
  destruct (is_busy s).
  { inversion H; subst. split; [split; assumption | discriminate]. }
  destruct (out_of_range speed (FocusSpeedN s)) eqn:E2.
  { inversion H; subst. split; [split; assumption | discriminate]. }
  inversion H; subst; clear H.
  unfold out_of_range in E2. apply orb_false_iff in E2. destruct E2 as [Ea Eb].
  apply Z.ltb_ge in Ea. rewrite Z.gtb_ltb in Eb. apply Z.ltb_ge in Eb.
  split; [split|].
  - unfold speed_inv, speed_of; cbn. lia.
  - exact Hse.
  - reflexivity.
Qed.

Lemma bind_inv {A B} (m : M A) (k : A -> M B) s b s2 e :
  bind m k s = Ok (b, s2, e) ->
  exists a s1 e1 e2, m s = Ok (a, s1, e1) /\ k a s1 = Ok (b, s2, e2) /\ e = e1 ++ e2.
Proof.
  unfold bind. destruct (m s) as [[[a s1] e1]|]; [|discriminate].
  destruct (k a s1) as [[[b' s2'] e2]|] eqn:Ek; [|discriminate].
  intros H. inversion H; subst. exists a, s1, e1, e2. repeat split. exact Ek.
Qed.

Lemma double_to_int32_inv d s r s' e :
  double_to_int32 d s = Ok (r, s', e) ->
  r = d /\ s' = s /\ e = [] /\ INT32_MIN <= d <= INT32_MAX.
Proof.
  unfold double_to_int32, ret, fault.
  destruct ((INT32_MIN <=? d) && (d <=? INT32_MAX)) eqn:E; [|discriminate].
  intros H. inversion H; subst. apply andb_true_iff in E. destruct E as [E1 E2].
  apply Z.leb_le in E1. apply Z.leb_le in E2. auto.
Qed.

Lemma planned_relativeTicks_inv dir speed duration s r s' e :
  planned_relativeTicks dir speed duration s = Ok (r, s', e) ->
  s' = s /\ e = [] /\ INT32_MIN <= r <= INT32_MAX /\
  r = match dir with
      | FOCUS_INWARD => Z.quot (speed * duration) 1000
      | FOCUS_OUTWARD => 0
      end.
Proof.
  unfold planned_relativeTicks, int32_checked, bind, ret, fault.
  destruct ((INT32_MIN <=? speed * duration) && (speed * duration <=? INT32_MAX)) eqn:E;
    [|discriminate].
  apply andb_true_iff in E. destruct E as [E1 E2].
  apply Z.leb_le in E1. apply Z.leb_le in E2.
  unfold INT32_MIN, INT32_MAX in *.
  assert (Hq : -2147483648 <= Z.quot (speed * duration) 1000 <= 2147483647).
  { pose proof (Z.quot_rem' (speed * duration) 1000) as Hqr.
    pose proof (Z.rem_bound_abs (speed * duration) 1000 ltac:(lia)). lia. }
  destruct dir; intros H; inversion H; subst; repeat split; try lia.
Qed.

Lemma MoveAbsFocuser_preserves_inv targetTicks s r s' evs :
  inv s -> MoveAbsFocuser targetTicks s = Ok (r, s', evs) -> inv s'.
Proof.
  intros Hi H. rewrite MoveAbsFocuser_eq in H.
  destruct (targetTicks =? position s); [inversion H; subst; exact Hi|].
  destruct (out_of_range targetTicks (FocusAbsPosN s)); [inversion H; subst; exact Hi|].
  apply bind_inv in H. destruct H as (rel & s1 & e1 & e2 & Hc & Hm & _).
  apply double_to_int32_inv in Hc. destruct Hc as (-> & -> & _ & Hr).
  eapply move_preserves_inv; eauto.
Qed.

Lemma MoveRelFocuser_preserves_inv dir ticks s r s' evs :
  inv s -> MoveRelFocuser dir ticks s = Ok (r, s', evs) -> inv s'.
Proof.
  intros Hi H. unfold MoveRelFocuser in H.
  apply bind_inv in H. destruct H as (t & s1 & e1 & e2 & Ht & Hm & _).
  unfold MoveRelFocuser_target in Ht. rewrite bind_get in Ht.
  unfold double_to_uint32, ret, fault in Ht.
  match type of Ht with (if ?c then _ else _) _ = _ => destruct c end; [|discriminate].
  inversion Ht; subst. eapply MoveAbsFocuser_preserves_inv; eauto.
Qed.

Lemma MoveFocuser_preserves_inv dir speed duration s r s' evs :
  inv s -> MoveFocuser dir speed duration s = Ok (r, s', evs) -> inv s'.
Proof.
  intros Hi H. unfold MoveFocuser in H.
  apply bind_inv in H. destruct H as (ok & s1 & e1 & e2 & Hs & Hk & _).
  apply SetFocuserSpeed_preserves_inv in Hs; [|exact Hi]. destruct Hs as [Hi1 _].
  destruct ok; [|inversion Hk; subst; exact Hi1].
  apply bind_inv in Hk. destruct Hk as (rel & s2 & e3 & e4 & Hp & Hk & _).
  apply planned_relativeTicks_inv in Hp. destruct Hp as (-> & _ & Hr & _).
  rewrite bind_get in Hk.
  destruct (out_of_range (value (FocusAbsPosN s1) + rel) (FocusAbsPosN s1)).
  - inversion Hk; subst; exact Hi1.
  - eapply move_preserves_inv; eauto.
Qed.

Lemma TimerHit_preserves_inv s r s' evs :
  inv s -> TimerHit s = Ok (r, s', evs) -> inv s'.
Proof.
  intros Hi H. rewrite TimerHit_eq in H.
  destruct (isConnected s); [|inversion H; subst; exact Hi].
  destruct (0 <? gTicksRequired s) eqn:E1; [|inversion H; subst; exact Hi].
  destruct (gTicksElapsed s <? gTicksRequired s) eqn:E2.
  - inversion H; subst; clear H. destruct Hi as [Hsp Hse]. split; [exact Hsp|].
    apply Z.ltb_lt in E1. apply Z.ltb_lt in E2.
    unfold session_inv, session_active in *. cbn.
    destruct Hse as (Hr & He & Hs).
    rewrite wrap32_small by (unfold INT32_MAX in *; lia).
    unfold INT32_MAX, two32 in *. repeat split; lia.
  - apply bind_inv in H. destruct H as (b & s1 & e1 & e2 & Ha & Hk & _).
    inversion Hk; subst. eapply AbortFocuser_preserves_inv; eauto.
Qed.

Lemma run_op_preserves_inv o s s' evs :
  inv s -> run_op o s = Ok (tt, s', evs) -> inv s'.
Proof.
  intros Hi H. destruct o; cbn [run_op] in H.
  - inversion H; subst. exact Hi.
  - apply bind_inv in H. destruct H as (b & s1 & e1 & e2 & Hd & Hk & _).
    inversion Hk; subst; clear Hk. unfold Disconnect in Hd.
    apply bind_inv in Hd. destruct Hd as (b' & s2 & e3 & e4 & Ha & Hk & _).
    inversion Hk; subst. eapply AbortFocuser_preserves_inv in Ha; eauto.
  - apply bind_inv in H. destruct H as (b & s1 & e1 & e2 & Hd & Hk & _).
    inversion Hk; subst. eapply SetFocuserSpeed_preserves_inv in Hd; [apply Hd|exact Hi].
  - eapply TimerHit_preserves_inv; eauto.
  - apply bind_inv in H. destruct H as (b & s1 & e1 & e2 & Hd & Hk & _).
    inversion Hk; subst. eapply MoveFocuser_preserves_inv; eauto.
  - apply bind_inv in H. destruct H as (b & s1 & e1 & e2 & Hd & Hk & _).
    inversion Hk; subst. eapply MoveAbsFocuser_preserves_inv; eauto.
  - apply bind_inv in H. destruct H as (b & s1 & e1 & e2 & Hd & Hk & _).
    inversion Hk; subst. eapply MoveRelFocuser_preserves_inv; eauto.
  - apply bind_inv in H. destruct H as (b & s1 & e1 & e2 & Hd & Hk & _).
    inversion Hk; subst. eapply AbortFocuser_preserves_inv; eauto.
  - inversion H; subst. exact Hi.
Qed.

Lemma startup_inv pre s evs : startup pre = Ok (tt, s, evs) -> inv s.
Proof.
  destruct pre as [a r sp t1 t2 t3 t4 el req poll out [g1 g2 g3 g4] c].
  intros H. vm_compute in H. injection H as <- _.
  unfold inv, speed_inv, session_inv, session_active, speed_of, INT32_MAX, two32; cbn.
  repeat split; lia.
Qed.

Lemma reachable_inv s : reachable s -> inv s.
Proof.
  induction 1 as [pre s evs H | s o s' evs _ IH _ H].
  - eapply startup_inv; eauto.
  - eapply run_op_preserves_inv; eauto.
Qed.

(** ** Abort and finalize *)

Lemma reachable_initial : reachable initial.
Proof. eapply (reachable_startup blank). reflexivity. Qed.

Lemma reachable_state_of o s :
  reachable s -> wf_op o ->
  (exists s' evs, run_op o s = Ok (tt, s', evs)) ->
  reachable (state_of (run_op o s) s).
Proof.
  intros Hs Hwf (s' & evs & H). rewrite H. cbn [state_of].
  eapply reachable_step; eauto.
Qed.

Lemma reachable_in_flight : reachable in_flight.
Proof.
  unfold in_flight. cbn [run_ops].
  repeat (apply reachable_state_of; [ | solve_wf | vm_compute; eauto ]).
  exact reachable_initial.
Qed.

(** Under the session invariant [AbortFocuser] returns [true], having
    applied to the position the ticks still to do, [gTicksRequired -
    gTicksElapsed], signed by the direction of the session. *)
Lemma AbortFocuser_applies_remaining s :
  session_inv s -> session_active s ->
  exists s' evs,
    AbortFocuser s = Ok (true, s', evs) /\
    position s' = position s + signed_by_direction s (gTicksRequired s - gTicksElapsed s) /\
    lastRelativeDelta s' = signed_by_direction s (gTicksRequired s - gTicksElapsed s) /\
    gTicksRequired s' = 0.
Proof.
  intros Hs Ha. eexists. eexists. split.
  - apply AbortFocuser_active; assumption.
  - cbn. repeat split.
Qed.

(** C1 (code defect).  A session of 5 requested ticks that has issued 3 is
    aborted at position 30000, moving inward: the code leaves the position
    at 30002 and the last relative delta at 2, the two ticks still to do,
    where the three ticks issued were to be applied (30003 and 3). *)
Theorem AbortFocuser_in_flight_applies_remaining :
  gTicksRequired in_flight = 5 /\ gTicksElapsed in_flight = 3 /\
  gDirectionIsOutward in_flight = false /\ position in_flight = 30000 /\
  exists s' evs,
    AbortFocuser in_flight = Ok (true, s', evs) /\
    position s' = 30002 /\ lastRelativeDelta s' = 2 /\ gTicksRequired s' = 0 /\
    position s' <> position in_flight + gTicksElapsed in_flight.
Proof.
  repeat split; try reflexivity.
  eexists. eexists. split; [vm_compute; reflexivity|].
  repeat split; try reflexivity. vm_compute. discriminate.
Qed.



(** ** Move planning *)

(** For an outward move the planned tick count is zero whenever the
    product does not overflow: [relativeTicks -= relativeTicks]. *)
Lemma planned_relativeTicks_outward speed duration s :
  INT32_MIN <= speed * duration <= INT32_MAX ->
  planned_relativeTicks FOCUS_OUTWARD speed duration s = Ok (0, s, []).
Proof.
  intros H. unfold planned_relativeTicks, int32_checked, bind, ret, fault.
  assert (E : (INT32_MIN <=? speed * duration) && (speed * duration <=? INT32_MAX) = true).
  { apply andb_true_iff. split; apply Z.leb_le; lia. }
  rewrite E. cbn. rewrite Z.sub_diag. reflexivity.
Qed.

Lemma planned_relativeTicks_inward speed duration s :
  INT32_MIN <= speed * duration <= INT32_MAX ->
  planned_relativeTicks FOCUS_INWARD speed duration s =
  Ok (Z.quot (speed * duration) 1000, s, []).
Proof.
  intros H. unfold planned_relativeTicks, int32_checked, bind, ret, fault.
  assert (E : (INT32_MIN <=? speed * duration) && (speed * duration <=? INT32_MAX) = true).
  { apply andb_true_iff. split; apply Z.leb_le; lia. }
  rewrite E. reflexivity.
Qed.

(** C2 (code defect).  [MoveFocuser(FOCUS_OUTWARD, 200, 1000)] on the
    freshly started driver: the speed is accepted and
    [floor(200 * 1000 / 1000)] is 200, but the planned tick count is 0, not
    -200; the request returns OK with the position still 30000, where an
    outward move of 200 ticks was to be made.  The inward request plans
    200 ticks and moves the position by 200. *)
Theorem MoveFocuser_outward_plans_zero :
  Z.quot (200 * 1000) 1000 = 200 /\
  planned_relativeTicks FOCUS_OUTWARD 200 1000 initial = Ok (0, initial, []) /\
  planned_relativeTicks FOCUS_INWARD 200 1000 initial = Ok (200, initial, []) /\
  (exists s' evs,
     MoveFocuser FOCUS_OUTWARD 200 1000 initial = Ok (IPS_OK, s', evs) /\
     position initial = 30000 /\ position s' = 30000 /\ lastRelativeDelta s' = 0) /\
  (exists s' evs,
     MoveFocuser FOCUS_INWARD 200 1000 initial = Ok (IPS_OK, s', evs) /\
     position s' = 30200 /\ lastRelativeDelta s' = 200).
Proof.
  split; [reflexivity|]. split; [reflexivity|]. split; [reflexivity|]. split.
  - eexists. eexists. split; [vm_compute; reflexivity|]. repeat split.
  - eexists. eexists. split; [vm_compute; reflexivity|]. repeat split.
Qed.

(** C3 (code defect).  A request for the position the focuser is at changes
    nothing and calls nothing, but the status it returns is ALERT, the
    initial value of [returnState], not OK. *)
Theorem MoveAbsFocuser_same_position_alert (s : FocuserRob) :
  MoveAbsFocuser (position s) s = Ok (IPS_ALERT, s, []) /\
  MoveAbsFocuser (position s) s <> Ok (IPS_OK, s, []).
Proof.
  rewrite MoveAbsFocuser_eq. rewrite Z.eqb_refl. split; [reflexivity | discriminate].
Qed.

(** ** Execution of a move *)

Lemma pulse_train_rises n : List.length (filter is_pulse_rise (pulse_train n)) = n.
Proof.
  induction n as [|n IH]; [reflexivity|]. cbn. rewrite IH. reflexivity.
Qed.

(** [prepared s] is [s] itself when no session is in flight, and otherwise
    the state [AbortFocuser] leaves. *)
Lemma prepared_spec s :
  (gTicksRequired s = 0 -> prepared s = s) /\
  (session_inv s -> session_active s ->
   exists evs, AbortFocuser s = Ok (true, prepared s, evs)).
Proof.
  unfold prepared, session_active. split.
  - intros E. apply Z.eqb_eq in E. rewrite E. reflexivity.
  - intros Hs Ha. apply Z.eqb_neq in Ha. rewrite Ha. apply Z.eqb_neq in Ha.
    eexists. apply AbortFocuser_active; assumption.
Qed.

(** C4.  A move of [n = |relativeTicks| > 0] ticks at a configured speed of
    at least 1, with [delayMs = 1000 / speed], started from [prepared s]
    (the state once a session in flight has been finalized).  If
    [delayMs < 10] the call returns OK after exactly [n] rounds of the pulse
    loop, the stop sequence and standby; the lines are left in stop and
    standby, the position has moved by the signed [relativeTicks], which is
    also the last relative delta, and no session is active.  Otherwise it
    returns BUSY with [gTicksRequired = n], [gTicksElapsed = 1],
    [gPollTimerMs = delayMs], having armed the timer for [delayMs] and
    issued one pulse; the driver is out of standby and position and last
    relative delta are those of [prepared s]. *)
Theorem move_execution_mode (relativeTicks : Z) (s : FocuserRob)
  (Hs : session_inv s) (Hv : 1 <= speed_of s)
  (Hn : relativeTicks <> 0) (Hr : INT32_MIN < relativeTicks <= INT32_MAX) :
  let n := Z.abs relativeTicks in
  let delayMs := Z.quot 1000 (speed_of s) in
  exists s' evs,
    move relativeTicks s =
      Ok (if delayMs <? MIN_POLL_TIMER_MS then IPS_OK else IPS_BUSY, s', evs) /\
    if delayMs <? MIN_POLL_TIMER_MS then
      evs = prepare_events s ++ move_prefix_events relativeTicks
              ++ pulse_train (Z.to_nat n) ++ stop_events
              ++ [EvIDSetNumber FocusAbsPosNP None; EvIDSetNumber FocusRelPosNP None] /\
      List.length (filter is_pulse_rise (pulse_train (Z.to_nat n))) = Z.to_nat n /\
      gpio s' = idle_pins /\
      position s' = position (prepared s) + relativeTicks /\
      lastRelativeDelta s' = relativeTicks /\
      ~ session_active s'
    else
      session_active s' /\
      gTicksRequired s' = n /\ gTicksElapsed s' = 1 /\ gPollTimerMs s' = delayMs /\
      evs = prepare_events s ++ move_prefix_events relativeTicks
              ++ EvSetTimer delayMs :: pulse_events /\
      stby (gpio s') = HIGH /\
      position s' = position (prepared s) /\
      lastRelativeDelta s' = lastRelativeDelta (prepared s).
Proof.
  intros n delayMs. subst n delayMs.
  destruct (Z.quot 1000 (speed_of s) <? MIN_POLL_TIMER_MS) eqn:E.
  - apply Z.ltb_lt in E. eexists. eexists. split.
    + apply move_sync; assumption.
    + split; [reflexivity|]. split; [apply pulse_train_rises|].
      unfold session_active, position, lastRelativeDelta. cbn.
      rewrite prepared_required. repeat split. intros H; apply H; reflexivity.
  - apply Z.ltb_ge in E. eexists. eexists. split.
    + apply move_async; assumption.
    + unfold session_active, position, lastRelativeDelta. cbn.
      repeat split; try lia.
      unfold running_pins. destruct (relativeTicks <? 0); reflexivity.
Qed.

Lemma move_execution_mode_witness :
  (exists s' evs,
     move (-3) in_flight = Ok (IPS_BUSY, s', evs) /\
     gTicksRequired s' = 3 /\ gTicksElapsed s' = 1 /\ gPollTimerMs s' = 1000) /\
  (exists s' evs,
     move 10 fast = Ok (IPS_OK, s', evs) /\ position s' = 30010 /\ gpio s' = idle_pins).
Proof.
  split.
  - assert (Hs : session_inv in_flight).
    { unfold session_inv, session_active, INT32_MAX, two32. vm_compute.
      repeat split; intros; discriminate. }
    assert (Hv : 1 <= speed_of in_flight) by (vm_compute; discriminate).
    assert (Hn : -3 <> 0) by lia.
    assert (Hr : INT32_MIN < -3 <= INT32_MAX) by (unfold INT32_MIN, INT32_MAX; lia).
    destruct (move_execution_mode (-3) in_flight Hs Hv Hn Hr) as (s' & evs & Hm & Hrest).
    exists s', evs. change (Z.quot 1000 (speed_of in_flight) <? MIN_POLL_TIMER_MS) with false in *.
    destruct Hrest as (_ & H1 & H2 & H3 & _). repeat split; assumption.
  - assert (Hs : session_inv fast).
    { unfold session_inv, session_active, INT32_MAX, two32. vm_compute.
      repeat split; intros; try discriminate; try congruence. }
    assert (Hv : 1 <= speed_of fast) by (vm_compute; discriminate).
    assert (Hn : 10 <> 0) by lia.
    assert (Hr : INT32_MIN < 10 <= INT32_MAX) by (unfold INT32_MIN, INT32_MAX; lia).
    destruct (move_execution_mode 10 fast Hs Hv Hn Hr) as (s' & evs & Hm & Hrest).
    exists s', evs. change (Z.quot 1000 (speed_of fast) <? MIN_POLL_TIMER_MS) with true in *.
    destruct Hrest as (_ & _ & H1 & H2 & _).
    split; [exact Hm|]. split; [rewrite H2; reflexivity | exact H1].
Defined.

(** ** Rejected requests *)

Lemma planned_relativeTicks_any_state dir speed duration s relativeTicks s1 :
  planned_relativeTicks dir speed duration s = Ok (relativeTicks, s, []) ->
  planned_relativeTicks dir speed duration s1 = Ok (relativeTicks, s1, []).
Proof.
  unfold planned_relativeTicks, int32_checked, bind, ret, fault.
  destruct ((INT32_MIN <=? speed * duration) && (speed * duration <=? INT32_MAX));
    [|discriminate].
  destruct dir; intros H; inversion H; reflexivity.
Qed.

Lemma MoveFocuser_planned_out_of_range dir speed duration relativeTicks s :
  planned_relativeTicks dir speed duration s = Ok (relativeTicks, s, []) ->
  out_of_range (position s + relativeTicks) (FocusAbsPosN s) = true ->
  (relativeTicks <- planned_relativeTicks dir speed duration ;;
   s <- get ;;
   if out_of_range (value (FocusAbsPosN s) + relativeTicks) (FocusAbsPosN s) then
     IDMessage "Error, requested position is out of range."%string ;;
     ret IPS_ALERT
   else move relativeTicks) s =
  Ok (IPS_ALERT, s, [EvIDMessage "Error, requested position is out of range."%string]).
Proof.
  intros Hp Ho. rewrite (bind_ok _ _ _ _ _ _ Hp). rewrite bind_get.
  unfold position in Ho. rewrite Ho. reflexivity.
Qed.

(** C5.  In every reachable state a move request that the code rejects (a
    speed of zero or outside the speed limits, a planned or requested
    target outside the position limits) returns ALERT, and the absolute
    position, the last relative delta and the four output lines, the
    standby line among them, are as before the request. *)
Theorem rejected_move_changes_nothing (s : FocuserRob) (q : MoveRequest)
  (Hreach : reachable s) (Hrej : rejected s q) :
  exists s' evs,
    submit q s = Ok (IPS_ALERT, s', evs) /\
    position s' = position s /\
    lastRelativeDelta s' = lastRelativeDelta s /\
    gpio s' = gpio s.
Proof.
  apply reachable_inv in Hreach. destruct Hreach as [(Hmin & Hmax & Hv) _].
  assert (Hrange : INT32_MIN <= speed_of s <= INT32_MAX)
    by (unfold INT32_MIN, INT32_MAX; lia).
  destruct q as [dir speed duration | targetTicks | dir ticks]; cbn [submit rejected] in *.
  - unfold MoveFocuser. cbn zeta.
    pose proof (SetFocuserSpeed_eq speed s Hrange) as Hset.
    destruct (speed =? speed_of s) eqn:E1.
    + apply Z.eqb_eq in E1.
      destruct Hrej as [H0 | [Hlo | [Hhi | (rel & Hp & Ho)]]]; try lia.
      rewrite (bind_ok _ _ _ _ _ _ Hset).
      rewrite (MoveFocuser_planned_out_of_range _ _ _ _ _ Hp Ho).
      eexists. eexists. split; [reflexivity|]. repeat split.
    + destruct (is_busy s).
      { rewrite (bind_ok _ _ _ _ _ _ Hset). eexists. eexists.
        split; [reflexivity|]. repeat split. }
      destruct (out_of_range speed (FocusSpeedN s)) eqn:E2.
      { rewrite (bind_ok _ _ _ _ _ _ Hset). eexists. eexists.
        split; [reflexivity|]. repeat split. }
      unfold out_of_range in E2. apply orb_false_iff in E2. destruct E2 as [Ea Eb].
      apply Z.ltb_ge in Ea. rewrite Z.gtb_ltb in Eb. apply Z.ltb_ge in Eb.
      destruct Hrej as [H0 | [Hlo | [Hhi | (rel & Hp & Ho)]]]; try lia.
      rewrite (bind_ok _ _ _ _ _ _ Hset).
      erewrite MoveFocuser_planned_out_of_range.
      * eexists. eexists. split; [reflexivity|]. repeat split.
      * eapply planned_relativeTicks_any_state. exact Hp.
      * exact Ho.
  - rewrite MoveAbsFocuser_eq. rewrite Hrej.
    destruct (targetTicks =? position s); eexists; eexists; (split; [reflexivity|]);
      repeat split.
  - destruct Hrej as (targetTicks & Ht & Ho). unfold MoveRelFocuser.
    rewrite (bind_ok _ _ _ _ _ _ Ht). rewrite MoveAbsFocuser_eq. rewrite Ho.
    destruct (targetTicks =? position s); eexists; eexists; (split; [reflexivity|]);
      repeat split.
Qed.

Lemma rejected_move_changes_nothing_witness :
  exists s' evs,
    submit (ReqMoveAbsFocuser 70000) in_flight = Ok (IPS_ALERT, s', evs) /\
    position s' = position in_flight /\
    lastRelativeDelta s' = lastRelativeDelta in_flight /\
    gpio s' = gpio in_flight.
Proof.
  apply (rejected_move_changes_nothing in_flight (ReqMoveAbsFocuser 70000)).
  - exact reachable_in_flight.
  - reflexivity.
Defined.

(** ** Speed changes *)

Lemma is_busy_true s :
  FocusTimerNP_s s = IPS_BUSY \/ FocusAbsPosNP_s s = IPS_BUSY \/ FocusRelPosNP_s s = IPS_BUSY ->
  is_busy s = true.
Proof.
  unfold is_busy. intros [H | [H | H]]; rewrite H; cbn;
    rewrite ?orb_true_r; reflexivity.
Qed.

(** C7, as stated, fails: with the absolute-position light busy and the
    speed configured to 1, a request for speed 1 returns [true] and sends
    no notification. *)
Lemma SetFocuserSpeed_busy_same_speed_accepted :
  FocusAbsPosNP_s busy_in_flight = IPS_BUSY /\
  speed_of busy_in_flight = 1 /\
  SetFocuserSpeed 1 busy_in_flight = Ok (true, busy_in_flight, []) /\
  ~ (exists msg,
       SetFocuserSpeed 1 busy_in_flight = Ok (false, busy_in_flight, [EvIDMessage msg])).
Proof.
  split; [reflexivity|]. split; [reflexivity|]. split; [reflexivity|].
  intros [msg H]. vm_compute in H. discriminate.
Qed.

(** C7, amended.  While any of the timer, absolute-position or
    relative-position lights is busy, a request for a speed other than the
    configured one returns [false] with the notification and changes
    nothing; a request for the configured speed returns [true] without a
    notification; in both cases the configured speed is as before. *)
Theorem SetFocuserSpeed_while_busy (speed : Z) (s : FocuserRob)
  (Hrange : INT32_MIN <= speed_of s <= INT32_MAX)
  (Hbusy : FocusTimerNP_s s = IPS_BUSY \/ FocusAbsPosNP_s s = IPS_BUSY \/
           FocusRelPosNP_s s = IPS_BUSY) :
  (speed <> speed_of s ->
   SetFocuserSpeed speed s =
   Ok (false, s, [EvIDMessage "Can't set the speed while the motor is running."%string])) /\
  (speed = speed_of s -> SetFocuserSpeed speed s = Ok (true, s, [])) /\
  (exists r s' evs, SetFocuserSpeed speed s = Ok (r, s', evs) /\ speed_of s' = speed_of s).
Proof.
  apply is_busy_true in Hbusy.
  rewrite (SetFocuserSpeed_eq speed s Hrange). rewrite Hbusy.
  destruct (speed =? speed_of s) eqn:E.
  - apply Z.eqb_eq in E. split; [intros; contradiction|]. split; [reflexivity|].
    eexists. eexists. eexists. split; reflexivity.
  - apply Z.eqb_neq in E. split; [reflexivity|]. split; [intros; contradiction|].
    eexists. eexists. eexists. split; reflexivity.
Qed.

Lemma SetFocuserSpeed_while_busy_witness :
  SetFocuserSpeed 50 busy_in_flight =
  Ok (false, busy_in_flight,
      [EvIDMessage "Can't set the speed while the motor is running."%string]).
Proof.
  assert (Hrange : INT32_MIN <= speed_of busy_in_flight <= INT32_MAX).
  { vm_compute. split; discriminate. }
  assert (Hbusy : FocusTimerNP_s busy_in_flight = IPS_BUSY \/
                  FocusAbsPosNP_s busy_in_flight = IPS_BUSY \/
                  FocusRelPosNP_s busy_in_flight = IPS_BUSY).
  { right. left. reflexivity. }
  apply (proj1 (SetFocuserSpeed_while_busy 50 busy_in_flight Hrange Hbusy)).
  vm_compute. discriminate.
Defined.

(** ** Faults: the inter-step delay is never computed at speed zero *)

Lemma bind_fail_inv {A B} (m : M A) (k : A -> M B) s f :
  bind m k s = Fail f ->
  m s = Fail f \/ exists a s1 e1, m s = Ok (a, s1, e1) /\ k a s1 = Fail f.
Proof.
  unfold bind. destruct (m s) as [[[a s1] e1]|f0].
  - destruct (k a s1) as [[[b s2] e2]|f1] eqn:Ek; [discriminate|].
    intros H. inversion H; subst. right. exists a, s1, e1. auto.
  - intros H. left. inversion H; reflexivity.
Qed.

Lemma AbortFocuser_fault s f : AbortFocuser s = Fail f -> f = SignedOverflow.
Proof.
  unfold AbortFocuser. unfold_driver.
  destruct s as [a r sp t1 t2 t3 t4 el req poll out [g1 g2 g3 g4] c]; cbn.
  destruct (0 <? req); cbn; [|discriminate].
  destruct out; cbn; [|discriminate].
  split_ifs; intros H; inversion H; reflexivity.
Qed.

Lemma move_from_fault delayMs relativeTicks s f :
  move_from delayMs relativeTicks s = Fail f -> f = SignedOverflow.
Proof.
  unfold move_from. unfold_driver.
  destruct s as [a r sp t1 t2 t3 t4 el req poll out [g1 g2 g3 g4] c]; cbn.
  destruct (relativeTicks <? 0); cbn.
  - destruct ((INT32_MIN <=? - relativeTicks) && (- relativeTicks <=? INT32_MAX)); cbn;
      [|intros H; inversion H; reflexivity].
    destruct (delayMs <? MIN_POLL_TIMER_MS); cbn; [|discriminate].
    match goal with |- context [tick_loop ?n ?s0] =>
      destruct (tick_loop_run n s0) as [p Hp]; rewrite Hp end.
    cbn. split_ifs; intros H; inversion H; reflexivity.
  - destruct (delayMs <? MIN_POLL_TIMER_MS); cbn; [|discriminate].
    match goal with |- context [tick_loop ?n ?s0] =>
      destruct (tick_loop_run n s0) as [p Hp]; rewrite Hp end.
    cbn. discriminate.
Qed.

Lemma move_fault relativeTicks s f :
  1 <= speed_of s -> move relativeTicks s = Fail f -> f = SignedOverflow.
Proof.
  intros Hv H. rewrite move_unfold in H.
  rewrite (bind_ok _ _ _ _ _ _ (delay_of_speed_ok _ s Hv)) in H.
  match type of H with
  | match ?x with _ => _ end = _ => destruct x as [[[b s2] e2]|f0] eqn:E; [discriminate|]
  end.
  inversion H; subst; clear H.
  apply bind_fail_inv in E. destruct E as [E | (u & s1 & e1 & _ & E)].
  - destruct (negb (gTicksRequired s =? 0)); [|discriminate].
    apply bind_fail_inv in E. destruct E as [E | (u & s1 & e1 & _ & E)];
      [eapply AbortFocuser_fault; eauto | discriminate].
  - eapply move_from_fault; eauto.
Qed.

Lemma run_op_fault o s f :
  inv s -> run_op o s = Fail f -> f <> DivisionByZero.
Proof.
  intros Hi H.
  assert (Hv : 1 <= speed_of s) by (destruct Hi as [(_ & _ & ?) _]; lia).
  assert (Hmove : forall t, MoveAbsFocuser t s = Fail f -> f <> DivisionByZero).
  { intros t Ht. rewrite MoveAbsFocuser_eq in Ht.
    destruct (t =? position s); [discriminate|].
    destruct (out_of_range t (FocusAbsPosN s)); [discriminate|].
    apply bind_fail_inv in Ht. destruct Ht as [Ht | (rel & s1 & e1 & Hc & Ht)].
    - unfold double_to_int32, ret, fault in Ht.
      match type of Ht with (if ?c then _ else _) _ = _ => destruct c end;
        [discriminate | inversion Ht; discriminate].
    - apply double_to_int32_inv in Hc. destruct Hc as (_ & -> & _).
      apply move_fault in Ht; [subst; discriminate | exact Hv]. }
  destruct o; cbn [run_op] in H.
  - discriminate.
  - apply bind_fail_inv in H. destruct H as [H | (u & s1 & e1 & _ & H)]; [|discriminate].
    unfold Disconnect in H.
    apply bind_fail_inv in H. destruct H as [H | (u & s1 & e1 & _ & H)]; [|discriminate].
    apply AbortFocuser_fault in H. subst; discriminate.
  - apply bind_fail_inv in H. destruct H as [H | (u & s1 & e1 & _ & H)]; [|discriminate].
    rewrite SetFocuserSpeed_eq in H
      by (destruct Hi as [(_ & _ & ?) _]; unfold INT32_MIN, INT32_MAX; lia).
    revert H. split_ifs; discriminate.
  - rewrite TimerHit_eq in H. revert H.
    destruct (isConnected s); [|discriminate].
    destruct (0 <? gTicksRequired s); [|discriminate].
    destruct (gTicksElapsed s <? gTicksRequired s); [discriminate|].
    intros H.
    apply bind_fail_inv in H. destruct H as [H | (u & s1 & e1 & _ & H)]; [|discriminate].
    apply AbortFocuser_fault in H. subst; discriminate.
  - apply bind_fail_inv in H. destruct H as [H | (u & s1 & e1 & _ & H)]; [|discriminate].
    unfold MoveFocuser in H.
    apply bind_fail_inv in H. destruct H as [H | (ok & s1 & e1 & Hset & H)].
    { rewrite SetFocuserSpeed_eq in H
        by (destruct Hi as [(_ & _ & ?) _]; unfold INT32_MIN, INT32_MAX; lia).
      revert H. split_ifs; discriminate. }
    apply SetFocuserSpeed_preserves_inv in Hset; [|exact Hi].
    destruct Hset as [[(_ & _ & Hv1) _] _].
    destruct ok; [|discriminate].
    apply bind_fail_inv in H. destruct H as [H | (rel & s2 & e2 & Hp & H)].
    { unfold planned_relativeTicks, int32_checked, bind, ret, fault in H.
      revert H. destruct dir; split_ifs; intros H; inversion H; discriminate. }
    apply planned_relativeTicks_inv in Hp. destruct Hp as (-> & _).
    rewrite bind_get in H.
    destruct (out_of_range (value (FocusAbsPosN s1) + rel) (FocusAbsPosN s1));
      [discriminate|].
    apply move_fault in H; [subst; discriminate | lia].
  - apply bind_fail_inv in H. destruct H as [H | (u & s1 & e1 & _ & H)]; [|discriminate].
    eapply Hmove; eauto.
  - apply bind_fail_inv in H. destruct H as [H | (u & s1 & e1 & _ & H)]; [|discriminate].
    unfold MoveRelFocuser in H.
    apply bind_fail_inv in H. destruct H as [H | (t & s1 & e1 & Ht & H)].
    + unfold MoveRelFocuser_target in H. rewrite bind_get in H.
      unfold double_to_uint32, ret, fault in H.
      match type of H with (if ?c then _ else _) _ = _ => destruct c end;
        [discriminate | inversion H; discriminate].
    + unfold MoveRelFocuser_target in Ht. rewrite bind_get in Ht.
      unfold double_to_uint32, ret, fault in Ht.
      match type of Ht with (if ?c then _ else _) _ = _ => destruct c end;
        [|discriminate].
      inversion Ht; subst. eapply Hmove; eauto.
  - apply bind_fail_inv in H. destruct H as [H | (u & s1 & e1 & _ & H)]; [|discriminate].
    apply AbortFocuser_fault in H. subst; discriminate.
  - discriminate.
Qed.

(** C8.  In every reachable state the configured speed is at least 1; a
    request for speed zero, through [SetFocuserSpeed] or through
    [MoveFocuser], is refused with a notification, the state unchanged and
    [move] not entered; the delay [1000 / speed] computed by [move] is
    defined, and no request faults on a zero divisor. *)
Theorem speed_zero_never_reaches_delay (s : FocuserRob) (H : reachable s) :
  1 <= speed_of s /\
  (exists msg, SetFocuserSpeed 0 s = Ok (false, s, [EvIDMessage msg])) /\
  (forall dir duration,
     exists msg, MoveFocuser dir 0 duration s = Ok (IPS_ALERT, s, [EvIDMessage msg])) /\
  delay_of_speed (speed_of s) s = Ok (Z.quot 1000 (speed_of s), s, []) /\
  (forall relativeTicks, move relativeTicks s <> Fail DivisionByZero) /\
  (forall o, run_op o s <> Fail DivisionByZero).
Proof.
  pose proof (reachable_inv s H) as Hi.
  pose proof Hi as [(Hmin & Hmax & Hv) Hse].
  assert (Hset : exists msg, SetFocuserSpeed 0 s = Ok (false, s, [EvIDMessage msg])).
  { rewrite SetFocuserSpeed_eq by (unfold INT32_MIN, INT32_MAX; lia).
    assert (E : (0 =? speed_of s) = false) by (apply Z.eqb_neq; lia). rewrite E.
    destruct (is_busy s); [eexists; reflexivity|].
    assert (E2 : out_of_range 0 (FocusSpeedN s) = true).
    { unfold out_of_range. rewrite Hmin. reflexivity. }
    rewrite E2. eexists; reflexivity. }
  split; [lia|]. split; [exact Hset|]. split; [|split; [|split]].
  - intros dir duration. destruct Hset as [msg Hset]. exists msg.
    unfold MoveFocuser. rewrite (bind_ok _ _ _ _ _ _ Hset). reflexivity.
  - apply delay_of_speed_ok. lia.
  - intros relativeTicks Hf. apply move_fault in Hf; [discriminate | lia].
  - intros o Hf. apply (run_op_fault o s DivisionByZero Hi Hf). reflexivity.
Qed.

Lemma speed_zero_never_reaches_delay_witness :
  1 <= speed_of in_flight /\
  move 2 in_flight <> Fail DivisionByZero.
Proof.
  destruct (speed_zero_never_reaches_delay in_flight reachable_in_flight)
    as (H1 & _ & _ & _ & H2 & _).
  split; [exact H1 | exact (H2 2)].
Defined.

(** ** The session counters *)

(** C9 (code defect).  [MoveFocuser(FOCUS_INWARD, 1, 500)] on the freshly
    started driver: the speed is accepted, [1 * 500 / 1000] plans 0 ticks
    and the planned position is within the limits, so [move(0)] runs; at
    one tick per second it takes the timer path, returns BUSY, arms the
    timer for 1000 ms, issues a pulse and leaves [gTicksRequired = 0] and
    [gTicksElapsed = 1].  The scheduled move so started has one tick
    elapsed of none required, against
    [0 <= ticksElapsed <= ticksRequired]; the state is reachable.
    [MoveAbsFocuser] never starts such a move: it passes no zero tick
    count on. *)
Theorem MoveFocuser_zero_ticks_breaks_counters :
  planned_relativeTicks FOCUS_INWARD 1 500 initial = Ok (0, initial, []) /\
  reachable zero_tick_move /\
  (exists evs,
     MoveFocuser FOCUS_INWARD 1 500 initial = Ok (IPS_BUSY, zero_tick_move, evs) /\
     In (EvSetTimer 1000) evs /\
     List.length (filter is_pulse_rise evs) = 1%nat) /\
  gTicksRequired zero_tick_move = 0 /\ gTicksElapsed zero_tick_move = 1 /\
  stby (gpio zero_tick_move) = HIGH /\
  ~ (0 <= gTicksElapsed zero_tick_move <= gTicksRequired zero_tick_move).
Proof.
  split; [reflexivity|]. split.
  - unfold zero_tick_move. cbn [run_ops].
    apply reachable_state_of; [exact reachable_initial | solve_wf | vm_compute; eauto].
  - split.
    + eexists. split; [vm_compute; reflexivity|].
      split; [cbn; tauto | reflexivity].
    + split; [reflexivity|]. split; [reflexivity|]. split; [reflexivity|].
      vm_compute. intros [_ H]. apply H. reflexivity.
Qed.

(** The counters of a session that has ticks to do.  In every reachable
    state with [gTicksRequired != 0] the counters satisfy
    [0 <= gTicksElapsed <= gTicksRequired], and whatever request runs next
    leaves a state where this holds again. *)
Theorem session_counters_bounded (s : FocuserRob) (H : reachable s) :
  (session_active s -> 0 <= gTicksElapsed s <= gTicksRequired s) /\
  (forall o s' evs,
     run_op o s = Ok (tt, s', evs) ->
     session_active s' -> 0 <= gTicksElapsed s' <= gTicksRequired s').
Proof.
  pose proof (reachable_inv s H) as Hi. split.
  - destruct Hi as [_ (_ & _ & Hs)]. exact Hs.
  - intros o s' evs Hrun.
    destruct (run_op_preserves_inv o s s' evs Hi Hrun) as [_ (_ & _ & Hs)]. exact Hs.
Qed.

Lemma session_counters_bounded_witness :
  session_active in_flight /\
  0 <= gTicksElapsed in_flight <= gTicksRequired in_flight /\
  (exists s' evs, run_op OpTimerHit in_flight = Ok (tt, s', evs) /\
     session_active s' /\ 0 <= gTicksElapsed s' <= gTicksRequired s').
Proof.
  assert (Ha : session_active in_flight) by (vm_compute; discriminate).
  destruct (session_counters_bounded in_flight reachable_in_flight) as [H1 H2].
  split; [exact Ha|]. split; [exact (H1 Ha)|].
  eexists. eexists. split; [vm_compute; reflexivity|].
  assert (Ha' : session_active
                  (state_of (run_op OpTimerHit in_flight) in_flight))
    by (vm_compute; discriminate).
  split; [exact Ha'|].
  apply (H2 OpTimerHit _ _ eq_refl). exact Ha'.
Defined.

(** ** Relative inward moves past zero *)

Lemma wrap32_inward_factor ticks :
  0 < ticks < two32 -> wrap32 (ticks * wrap32 (-1)) = two32 - ticks.
Proof.
  intros H. unfold wrap32, two32 in *.
  change ((-1) mod 4294967296) with 4294967295.
  symmetry. apply Z.mod_unique with (q := ticks - 1); lia.
Qed.

(** C10, as stated, fails: the position can be below zero.  Three
    absolute moves in a row reach position -29997 with the default limits;
    there an inward relative move of 2^32 - 60001 ticks, more than the
    position and fewer than 2^32 - 60000, computes the target 30004,
    within the limits, and the request is accepted: it returns BUSY, not
    ALERT. *)
Lemma MoveRelFocuser_inward_below_zero_accepted :
  reachable below_zero /\
  position below_zero = -29997 /\
  min (FocusAbsPosN below_zero) = 0 /\ max (FocusAbsPosN below_zero) = 60000 /\
  position below_zero < 4294907295 /\ 4294907295 < two32 - 60000 /\
  MoveRelFocuser_target FOCUS_INWARD 4294907295 below_zero = Ok (30004, below_zero, []) /\
  (exists s' evs,
     MoveRelFocuser FOCUS_INWARD 4294907295 below_zero = Ok (IPS_BUSY, s', evs)) /\
  ~ (exists s' evs,
       MoveRelFocuser FOCUS_INWARD 4294907295 below_zero = Ok (IPS_ALERT, s', evs)).
Proof.
  split.
  { unfold below_zero. cbn [run_ops].
    repeat (apply reachable_state_of; [ | solve_wf | vm_compute; eauto ]).
    exact reachable_initial. }
  split; [reflexivity|]. split; [reflexivity|]. split; [reflexivity|].
  split; [reflexivity|]. split; [reflexivity|]. split; [reflexivity|]. split.
  - eexists. eexists. vm_compute. reflexivity.
  - intros (s' & evs & H). vm_compute in H. discriminate.
Qed.

(** C10, amended.  With the default position limits [0, 60000] and the
    position not below zero, an inward relative move by more ticks than the
    position (and fewer than 2^32 - 60000) computes as its target
    [(position - ticks) mod 2^32], which is above 60000; the request
    returns ALERT with the out-of-range notification and the state,
    position included, is unchanged. *)
Theorem MoveRelFocuser_inward_past_zero_rejected (s : FocuserRob) (ticks : Z)
  (Hmin : min (FocusAbsPosN s) = 0) (Hmax : max (FocusAbsPosN s) = 60000)
  (Hpos : 0 <= position s)
  (Hticks : position s < ticks) (Hbound : ticks < two32 - 60000) :
  MoveRelFocuser_target FOCUS_INWARD ticks s =
    Ok (wrap32 (position s - ticks), s, []) /\
  max (FocusAbsPosN s) < wrap32 (position s - ticks) /\
  MoveRelFocuser FOCUS_INWARD ticks s =
    Ok (IPS_ALERT, s, [EvIDMessage "Error, requested position is out of range."%string]).
Proof.
  assert (Hw : wrap32 (position s - ticks) = position s + (two32 - ticks)).
  { unfold wrap32, two32 in *. symmetry.
    apply Z.mod_unique with (q := -1); lia. }
  assert (Ht : MoveRelFocuser_target FOCUS_INWARD ticks s =
               Ok (wrap32 (position s - ticks), s, [])).
  { unfold MoveRelFocuser_target. rewrite bind_get.
    rewrite wrap32_inward_factor by (unfold two32 in *; lia).
    unfold double_to_uint32, ret, fault. fold (position s).
    assert (E : (0 <=? position s + (two32 - ticks)) && (position s + (two32 - ticks) <? two32)
                = true).
    { apply andb_true_iff. split; [apply Z.leb_le | apply Z.ltb_lt]; unfold two32 in *; lia. }
    rewrite E. rewrite Hw. reflexivity. }
  split; [exact Ht|]. split; [rewrite Hw, Hmax; unfold two32 in *; lia|].
  unfold MoveRelFocuser. rewrite (bind_ok _ _ _ _ _ _ Ht). rewrite MoveAbsFocuser_eq.
  assert (E1 : (wrap32 (position s - ticks) =? position s) = false).
  { apply Z.eqb_neq. rewrite Hw. unfold two32 in *. lia. }
  assert (E2 : out_of_range (wrap32 (position s - ticks)) (FocusAbsPosN s) = true).
  { unfold out_of_range. apply orb_true_iff. right. rewrite Z.gtb_ltb. apply Z.ltb_lt.
    rewrite Hw, Hmax. unfold two32 in *. lia. }
  rewrite E1, E2. reflexivity.
Qed.

Lemma MoveRelFocuser_inward_past_zero_rejected_witness :
  MoveRelFocuser FOCUS_INWARD 30001 initial =
  Ok (IPS_ALERT, initial, [EvIDMessage "Error, requested position is out of range."%string]).
Proof.
  apply (MoveRelFocuser_inward_past_zero_rejected initial 30001).
  - reflexivity.
  - reflexivity.
  - vm_compute. discriminate.
  - vm_compute. reflexivity.
  - vm_compute. reflexivity.
Defined.

(** * Further properties of the driver *)

(** ** Which speeds run synchronously *)

Lemma delay_threshold speed :
  1 <= speed ->
  (Z.quot 1000 speed <? MIN_POLL_TIMER_MS) = (100 <? speed).
Proof.
  intros H. unfold MIN_POLL_TIMER_MS. rewrite Z.quot_div_nonneg by lia.
  destruct (100 <? speed) eqn:E.
  - apply Z.ltb_lt in E. apply Z.ltb_lt. apply Z.div_lt_upper_bound; lia.
  - apply Z.ltb_ge in E. apply Z.ltb_ge. apply Z.div_le_lower_bound; lia.
Qed.

Lemma prepared_position s :
  position (prepared s) =
  if gTicksRequired s =? 0 then position s
  else position s + signed_by_direction s (gTicksRequired s - gTicksElapsed s).
Proof.
  unfold prepared. destruct (gTicksRequired s =? 0); reflexivity.
Qed.

Lemma prepared_limits s : min (FocusAbsPosN (prepared s)) = min (FocusAbsPosN s) /\
                          max (FocusAbsPosN (prepared s)) = max (FocusAbsPosN s).
Proof. unfold prepared. destruct (gTicksRequired s =? 0); split; reflexivity. Qed.

(** X1.  An absolute move to a target within the limits and different from
    the position, requested with no session in flight: at a speed above 100
    ticks per second it runs synchronously, returns OK, leaves the position
    exactly at the target (so within the limits), records the signed
    distance as the last relative delta and leaves the lines in stop and
    standby; at a speed of 100 or below it returns BUSY with the position
    untouched, a session of [|target - position|] ticks started and the
    direction flag set when the target is below the position. *)
Theorem MoveAbsFocuser_accepted (s : FocuserRob) (targetTicks : Z)
  (Hi : inv s) (Hidle : gTicksRequired s = 0)
  (Hne : targetTicks <> position s)
  (Hin : min (FocusAbsPosN s) <= targetTicks <= max (FocusAbsPosN s))
  (Hr : INT32_MIN < targetTicks - position s <= INT32_MAX) :
  exists s' evs,
    MoveAbsFocuser targetTicks s =
      Ok (if 100 <? speed_of s then IPS_OK else IPS_BUSY, s', evs) /\
    gDirectionIsOutward s' = (targetTicks <? position s) /\
    if 100 <? speed_of s then
      position s' = targetTicks /\
      min (FocusAbsPosN s') <= position s' <= max (FocusAbsPosN s') /\
      lastRelativeDelta s' = targetTicks - position s /\
      gpio s' = idle_pins /\ ~ session_active s'
    else
      position s' = position s /\
      gTicksRequired s' = Z.abs (targetTicks - position s) /\
      gTicksElapsed s' = 1 /\
      gpio s' = running_pins (targetTicks <? position s).
Proof.
  destruct Hi as [(Hmin & Hmax & Hv) Hse].
  assert (Hv1 : 1 <= speed_of s) by lia.
  rewrite MoveAbsFocuser_eq.
  assert (E1 : (targetTicks =? position s) = false) by (apply Z.eqb_neq; exact Hne).
  assert (E2 : out_of_range targetTicks (FocusAbsPosN s) = false).
  { unfold out_of_range. apply orb_false_iff. split; [apply Z.ltb_ge; lia|].
    rewrite Z.gtb_ltb. apply Z.ltb_ge. lia. }
  rewrite E1, E2.
  assert (Hc : double_to_int32 (targetTicks - position s) s =
               Ok (targetTicks - position s, s, [])).
  { unfold double_to_int32, ret.
    assert (E : (INT32_MIN <=? targetTicks - position s)
                && (targetTicks - position s <=? INT32_MAX) = true).
    { apply andb_true_iff. split; apply Z.leb_le; lia. }
    rewrite E. reflexivity. }
  rewrite (bind_ok _ _ _ _ _ _ Hc).
  assert (Hlt : (targetTicks - position s <? 0) = (targetTicks <? position s)).
  { destruct (targetTicks <? position s) eqn:E.
    - apply Z.ltb_lt in E. apply Z.ltb_lt. lia.
    - apply Z.ltb_ge in E. apply Z.ltb_ge. lia. }
  assert (Hp : prepared s = s) by (apply prepared_spec; exact Hidle).
  rewrite <- (delay_threshold _ Hv1).
  destruct (Z.quot 1000 (speed_of s) <? MIN_POLL_TIMER_MS) eqn:E.
  - apply Z.ltb_lt in E. rewrite (move_sync _ _ Hse Hv1 E Hr). rewrite Hp.
    eexists. eexists. split; [reflexivity|].
    unfold position, lastRelativeDelta, session_active in *. cbn.
    rewrite Hlt. repeat split; try lia.
  - apply Z.ltb_ge in E. rewrite (move_async _ _ Hse Hv1 E Hr). rewrite Hp.
    eexists. eexists. split; [reflexivity|].
    unfold position in *. cbn. rewrite Hlt. repeat split.
Qed.

Lemma MoveAbsFocuser_accepted_witness :
  exists s' evs,
    MoveAbsFocuser 29990 fast = Ok (IPS_OK, s', evs) /\
    position s' = 29990 /\ lastRelativeDelta s' = -10 /\ gpio s' = idle_pins.
Proof.
  assert (Hi : inv fast).
  { unfold inv, speed_inv, session_inv, session_active, INT32_MAX, two32. vm_compute.
    repeat split; intros; try discriminate; try congruence. }
  assert (Hidle : gTicksRequired fast = 0) by reflexivity.
  assert (Hne : 29990 <> position fast) by (vm_compute; discriminate).
  assert (Hin : min (FocusAbsPosN fast) <= 29990 <= max (FocusAbsPosN fast)).
  { vm_compute. split; discriminate. }
  assert (Hr : INT32_MIN < 29990 - position fast <= INT32_MAX).
  { vm_compute. split; [reflexivity | discriminate]. }
  destruct (MoveAbsFocuser_accepted fast 29990 Hi Hidle Hne Hin Hr)
    as (s' & evs & Hm & _ & Hrest).
  change (100 <? speed_of fast) with true in *.
  destruct Hrest as (H1 & _ & H2 & H3 & _).
  exists s', evs. split; [exact Hm|]. split; [exact H1|]. split; [exact H2 | exact H3].
Defined.

(** X2.  An absolute move requested while a session is in flight.  The
    tick count is computed from the position before the session is
    finalized, and the finalization then advances the position by the
    ticks the old session still had to do.  So a synchronous move ends at
    the target plus that remainder, not at the target, and an asynchronous
    one starts from the advanced position with [|target - old position|]
    ticks to do. *)
Theorem MoveAbsFocuser_during_session (s : FocuserRob) (targetTicks : Z)
  (Hi : inv s) (Hact : session_active s)
  (Hne : targetTicks <> position s)
  (Hin : min (FocusAbsPosN s) <= targetTicks <= max (FocusAbsPosN s))
  (Hr : INT32_MIN < targetTicks - position s <= INT32_MAX) :
  let remainder := signed_by_direction s (gTicksRequired s - gTicksElapsed s) in
  exists s' evs,
    MoveAbsFocuser targetTicks s =
      Ok (if 100 <? speed_of s then IPS_OK else IPS_BUSY, s', evs) /\
    if 100 <? speed_of s then
      position s' = targetTicks + remainder /\
      lastRelativeDelta s' = targetTicks - position s /\
      ~ session_active s'
    else
      position s' = position s + remainder /\
      lastRelativeDelta s' = remainder /\
      gTicksRequired s' = Z.abs (targetTicks - position s) /\
      gTicksElapsed s' = 1.
Proof.
  intros remainder. subst remainder.
  destruct Hi as [(Hmin & Hmax & Hv) Hse].
  assert (Hv1 : 1 <= speed_of s) by lia.
  rewrite MoveAbsFocuser_eq.
  assert (E1 : (targetTicks =? position s) = false) by (apply Z.eqb_neq; exact Hne).
  assert (E2 : out_of_range targetTicks (FocusAbsPosN s) = false).
  { unfold out_of_range. apply orb_false_iff. split; [apply Z.ltb_ge; lia|].
    rewrite Z.gtb_ltb. apply Z.ltb_ge. lia. }
  rewrite E1, E2.
  assert (Hc : double_to_int32 (targetTicks - position s) s =
               Ok (targetTicks - position s, s, [])).
  { unfold double_to_int32, ret.
    assert (E : (INT32_MIN <=? targetTicks - position s)
                && (targetTicks - position s <=? INT32_MAX) = true).
    { apply andb_true_iff. split; apply Z.leb_le; lia. }
    rewrite E. reflexivity. }
  rewrite (bind_ok _ _ _ _ _ _ Hc).
  assert (Hp : prepared s = finalized s).
  { unfold prepared. unfold session_active in Hact. apply Z.eqb_neq in Hact.
    rewrite Hact. reflexivity. }
  rewrite <- (delay_threshold _ Hv1).
  destruct (Z.quot 1000 (speed_of s) <? MIN_POLL_TIMER_MS) eqn:E.
  - apply Z.ltb_lt in E. rewrite (move_sync _ _ Hse Hv1 E Hr). rewrite Hp.
    eexists. eexists. split; [reflexivity|].
    unfold position, lastRelativeDelta, session_active in *. cbn.
    repeat split; try lia.
  - apply Z.ltb_ge in E. rewrite (move_async _ _ Hse Hv1 E Hr). rewrite Hp.
    eexists. eexists. split; [reflexivity|].
    unfold position, lastRelativeDelta in *. cbn. repeat split.
Qed.

Lemma MoveAbsFocuser_during_session_witness :
  exists s' evs,
    MoveAbsFocuser 30010 in_flight = Ok (IPS_BUSY, s', evs) /\
    position s' = 30002 /\ gTicksRequired s' = 10.
Proof.
  assert (Hi : inv in_flight).
  { unfold inv, speed_inv, session_inv, session_active, INT32_MAX, two32. vm_compute.
    repeat split; intros; try discriminate; try congruence. }
  assert (Hact : session_active in_flight) by (vm_compute; discriminate).
  assert (Hne : 30010 <> position in_flight) by (vm_compute; discriminate).
  assert (Hin : min (FocusAbsPosN in_flight) <= 30010 <= max (FocusAbsPosN in_flight)).
  { vm_compute. split; discriminate. }
  assert (Hr : INT32_MIN < 30010 - position in_flight <= INT32_MAX).
  { vm_compute. split; [reflexivity | discriminate]. }
  destruct (MoveAbsFocuser_during_session in_flight 30010 Hi Hact Hne Hin Hr)
    as (s' & evs & Hm & Hrest).
  change (100 <? speed_of in_flight) with false in *.
  destruct Hrest as (H1 & _ & H2 & _).
  exists s', evs. split; [exact Hm|]. split; [exact H1 | exact H2].
Defined.

(** ** Timed moves *)

Lemma planned_relativeTicks_accepted dir speed duration s :
  1 <= speed <= 255 -> 0 <= duration < 65536 ->
  planned_relativeTicks dir speed duration s =
  Ok (match dir with
      | FOCUS_INWARD => speed * duration / 1000
      | FOCUS_OUTWARD => 0
      end, s, []) /\
  0 <= speed * duration / 1000 <= 16711.
Proof.
  intros Hs Hd.
  assert (Hprod : 0 <= speed * duration <= 16711425).
  { split; [apply Z.mul_nonneg_nonneg; lia|].
    change 16711425 with (255 * 65535). apply Z.mul_le_mono_nonneg; lia. }
  assert (Hrange : INT32_MIN <= speed * duration <= INT32_MAX)
    by (unfold INT32_MIN, INT32_MAX; lia).
  split.
  - destruct dir.
    + rewrite planned_relativeTicks_inward by exact Hrange.
      rewrite Z.quot_div_nonneg by lia. reflexivity.
    + apply planned_relativeTicks_outward. exact Hrange.
  - split; [apply Z.div_pos; lia|].
    assert (speed * duration / 1000 < 16712) by (apply Z.div_lt_upper_bound; lia).
    lia.
Qed.

(** X3.  Planning of a timed move.  For every speed within [1, 255] and
    every 16-bit duration the product does not overflow; an inward move
    plans [floor(speed * duration / 1000)] ticks, a number between 0 and
    16711, and an outward move plans 0 ticks whatever the speed and the
    duration. *)
Theorem planned_relativeTicks_law (dir : FocusDirection) (speed duration : Z)
  (s : FocuserRob) (Hs : 1 <= speed <= 255) (Hd : 0 <= duration < 65536) :
  exists relativeTicks,
    planned_relativeTicks dir speed duration s = Ok (relativeTicks, s, []) /\
    0 <= relativeTicks <= 16711 /\
    (dir = FOCUS_INWARD -> relativeTicks = speed * duration / 1000) /\
    (dir = FOCUS_OUTWARD -> relativeTicks = 0).
Proof.
  destruct (planned_relativeTicks_accepted dir speed duration s Hs Hd) as [Hp Hb].
  eexists. split; [exact Hp|].
  destruct dir; repeat split; try lia; intros; try reflexivity; discriminate.
Qed.

Lemma planned_relativeTicks_law_witness :
  exists relativeTicks,
    planned_relativeTicks FOCUS_INWARD 255 65535 initial = Ok (relativeTicks, initial, []) /\
    0 <= relativeTicks <= 16711 /\
    (FOCUS_INWARD = FOCUS_INWARD -> relativeTicks = 255 * 65535 / 1000) /\
    (FOCUS_INWARD = FOCUS_OUTWARD -> relativeTicks = 0).
Proof.
  apply (planned_relativeTicks_law FOCUS_INWARD 255 65535 initial); lia.
Defined.

(** ** Speed changes, in general *)

(** X4.  In a state that satisfies the driver invariant every call of
    [SetFocuserSpeed] returns.  It returns [true] exactly when the requested
    speed is the configured one already, or no light is busy and the
    request lies within [1, 255]; and exactly then the configured speed
    afterwards is the requested one.  A refused request changes nothing; an
    accepted one changes only the speed number and its light: position,
    last delta, session counters and output lines are as before. *)
Theorem SetFocuserSpeed_result (s : FocuserRob) (speed : Z) (Hi : inv s) :
  exists r s' evs,
    SetFocuserSpeed speed s = Ok (r, s', evs) /\
    (r = true <-> speed = speed_of s \/ (is_busy s = false /\ 1 <= speed <= 255)) /\
    (r = true <-> speed_of s' = speed) /\
    (r = false -> s' = s) /\
    FocusAbsPosN s' = FocusAbsPosN s /\ FocusRelPosN s' = FocusRelPosN s /\
    gTicksRequired s' = gTicksRequired s /\ gTicksElapsed s' = gTicksElapsed s /\
    gDirectionIsOutward s' = gDirectionIsOutward s /\ gpio s' = gpio s /\
    inv s'.
Proof.
  pose proof Hi as [(Hmin & Hmax & Hv) Hse].
  rewrite SetFocuserSpeed_eq by (unfold INT32_MIN, INT32_MAX; lia).
  destruct (speed =? speed_of s) eqn:E1.
  { apply Z.eqb_eq in E1. exists true, s, []. split; [reflexivity|].
    split; [split; auto|]. split; [split; auto|]. split; [discriminate|].
    repeat (split; [reflexivity|]). exact Hi. }
  apply Z.eqb_neq in E1.
  destruct (is_busy s) eqn:Eb.
  { eexists false, s, _. split; [reflexivity|].
    split; [split; [discriminate | intros [H | [H _]]; [contradiction | discriminate]]|].
    split; [split; [discriminate | intros H; symmetry in H; contradiction]|].
    split; [reflexivity|].
    repeat (split; [reflexivity|]). exact Hi. }
  destruct (out_of_range speed (FocusSpeedN s)) eqn:E2.
  { unfold out_of_range in E2. apply orb_true_iff in E2.
    rewrite Z.gtb_ltb in E2. rewrite Z.ltb_lt, Z.ltb_lt in E2.
    eexists false, s, _. split; [reflexivity|].
    split; [split; [discriminate | intros [H | [_ H]]; [contradiction | lia]]|].
    split; [split; [discriminate | intros H; symmetry in H; contradiction]|].
    split; [reflexivity|].
    repeat (split; [reflexivity|]). exact Hi. }
  unfold out_of_range in E2. apply orb_false_iff in E2. destruct E2 as [Ea Ec].
  apply Z.ltb_ge in Ea. rewrite Z.gtb_ltb in Ec. apply Z.ltb_ge in Ec.
  eexists true, _, _. split; [reflexivity|].
  split; [split; [intros _; right; split; [reflexivity | lia] | reflexivity]|].
  split; [split; reflexivity|]. split; [discriminate|].
  repeat (split; [reflexivity|]).
  split; [|exact Hse]. unfold speed_inv, speed_of. cbn. lia.
Qed.

Lemma SetFocuserSpeed_result_witness :
  exists r s' evs,
    SetFocuserSpeed 300 initial = Ok (r, s', evs) /\
    (r = true <-> speed_of s' = 300) /\ (r = false -> s' = initial).
Proof.
  assert (Hi : inv initial).
  { unfold inv, speed_inv, session_inv, session_active, INT32_MAX, two32. vm_compute.
    repeat split; intros; try discriminate; try congruence. }
  destruct (SetFocuserSpeed_result initial 300 Hi)
    as (r & s' & evs & H & _ & H1 & H2 & _).
  exists r, s', evs. split; [exact H|]. split; [exact H1 | exact H2].
Defined.

Lemma SetFocuserSpeed_accepts speed s :
  inv s -> speed = speed_of s \/ is_busy s = false -> 1 <= speed <= 255 ->
  exists s1 e1,
    SetFocuserSpeed speed s = Ok (true, s1, e1) /\
    speed_of s1 = speed /\ inv s1 /\
    FocusAbsPosN s1 = FocusAbsPosN s /\ FocusRelPosN s1 = FocusRelPosN s /\
    gTicksRequired s1 = gTicksRequired s /\ gTicksElapsed s1 = gTicksElapsed s /\
    gDirectionIsOutward s1 = gDirectionIsOutward s /\ gpio s1 = gpio s.
Proof.
  intros Hi Hok Hs. pose proof Hi as [(Hmin & Hmax & Hv) Hse].
  rewrite SetFocuserSpeed_eq by (unfold INT32_MIN, INT32_MAX; lia).
  destruct (speed =? speed_of s) eqn:E1.
  { apply Z.eqb_eq in E1. exists s, []. split; [reflexivity|].
    split; [auto|]. split; [exact Hi|]. repeat (split; [reflexivity|]). reflexivity. }
  apply Z.eqb_neq in E1. destruct Hok as [Hok | Hok]; [contradiction|].
  rewrite Hok.
  assert (E2 : out_of_range speed (FocusSpeedN s) = false).
  { unfold out_of_range. apply orb_false_iff. split; [apply Z.ltb_ge; lia|].
    rewrite Z.gtb_ltb. apply Z.ltb_ge. lia. }
  rewrite E2. eexists. eexists. split; [reflexivity|].
  split; [reflexivity|]. split.
  { split; [|exact Hse]. unfold speed_inv, speed_of. cbn. lia. }
  repeat (split; [reflexivity|]). reflexivity.
Qed.

(** X5.  A timed move with an accepted speed (the configured one, or any
    speed within [1, 255] while no light is busy), requested with no
    session in flight and a planned position within the limits.  The speed
    becomes the configured speed.  Above 100 ticks per second the move is
    synchronous: OK, the position advanced by the planned ticks, which are
    also the last relative delta, lines in stop and standby.  At 100 or
    below: BUSY, position untouched, [gTicksRequired] the planned ticks and
    [gTicksElapsed] 1.  The planned ticks are [speed * duration / 1000]
    inward and 0 outward. *)
Theorem MoveFocuser_accepted (s : FocuserRob) (dir : FocusDirection)
  (speed duration : Z)
  (Hi : inv s) (Hidle : gTicksRequired s = 0)
  (Hok : speed = speed_of s \/ is_busy s = false)
  (Hs : 1 <= speed <= 255) (Hd : 0 <= duration < 65536) :
  let n := match dir with
           | FOCUS_INWARD => speed * duration / 1000
           | FOCUS_OUTWARD => 0
           end in
  min (FocusAbsPosN s) <= position s + n <= max (FocusAbsPosN s) ->
  exists s' evs,
    MoveFocuser dir speed duration s =
      Ok (if 100 <? speed then IPS_OK else IPS_BUSY, s', evs) /\
    speed_of s' = speed /\
    if 100 <? speed then
      position s' = position s + n /\ lastRelativeDelta s' = n /\
      gpio s' = idle_pins /\ ~ session_active s'
    else
      position s' = position s /\ gTicksRequired s' = n /\ gTicksElapsed s' = 1.
Proof.
  intros n Hin.
  destruct (SetFocuserSpeed_accepts speed s Hi Hok Hs)
    as (s1 & e1 & Hset & Hsp & Hi1 & Ha & Hrel & Hreq & Hel & Hdir & Hg).
  destruct (planned_relativeTicks_accepted dir speed duration s1 Hs Hd) as [Hp Hb].
  fold n in Hp.
  assert (Hn : 0 <= n <= 16711) by (subst n; destruct dir; lia).
  unfold MoveFocuser. cbn zeta.
  rewrite (bind_ok _ _ _ _ _ _ Hset). rewrite (bind_ok _ _ _ _ _ _ Hp).
  rewrite bind_get.
  assert (E2 : out_of_range (value (FocusAbsPosN s1) + n) (FocusAbsPosN s1) = false).
  { rewrite Ha. unfold out_of_range, position in *. apply orb_false_iff.
    split; [apply Z.ltb_ge; lia|]. rewrite Z.gtb_ltb. apply Z.ltb_ge. lia. }
  rewrite E2.
  destruct Hi1 as [(Hmin1 & Hmax1 & Hv1) Hse1].
  assert (Hv1' : 1 <= speed_of s1) by lia.
  assert (Hr : INT32_MIN < n <= INT32_MAX) by (unfold INT32_MIN, INT32_MAX; lia).
  assert (Hp1 : prepared s1 = s1) by (apply prepared_spec; lia).
  assert (Hnn : (n <? 0) = false) by (apply Z.ltb_ge; lia).
  rewrite <- Hsp. rewrite <- (delay_threshold _ Hv1').
  destruct (Z.quot 1000 (speed_of s1) <? MIN_POLL_TIMER_MS) eqn:E.
  - apply Z.ltb_lt in E. rewrite (move_sync _ _ Hse1 Hv1' E Hr). rewrite Hp1.
    eexists. eexists. split; [reflexivity|].
    unfold position, lastRelativeDelta, session_active, speed_of in *. cbn.
    rewrite Ha. repeat split; try lia.
  - apply Z.ltb_ge in E. rewrite (move_async _ _ Hse1 Hv1' E Hr). rewrite Hp1.
    eexists. eexists. split; [reflexivity|].
    unfold position, speed_of in *. cbn. rewrite Ha. repeat split; lia.
Qed.

Lemma MoveFocuser_accepted_witness :
  exists s' evs,
    MoveFocuser FOCUS_INWARD 200 50 initial = Ok (IPS_OK, s', evs) /\
    speed_of s' = 200 /\ position s' = 30010.
Proof.
  assert (Hi : inv initial).
  { unfold inv, speed_inv, session_inv, session_active, INT32_MAX, two32. vm_compute.
    repeat split; intros; try discriminate; try congruence. }
  assert (Hidle : gTicksRequired initial = 0) by reflexivity.
  assert (Hok : 200 = speed_of initial \/ is_busy initial = false) by (right; reflexivity).
  assert (Hs : 1 <= 200 <= 255) by lia.
  assert (Hd : 0 <= 50 < 65536) by lia.
  assert (Hin : min (FocusAbsPosN initial) <= position initial + 200 * 50 / 1000
                <= max (FocusAbsPosN initial)).
  { vm_compute. split; discriminate. }
  destruct (MoveFocuser_accepted initial FOCUS_INWARD 200 50 Hi Hidle Hok Hs Hd Hin)
    as (s' & evs & Hm & Hsp & Hrest).
  change (100 <? 200) with true in *. destruct Hrest as (H1 & _).
  exists s', evs. split; [exact Hm|]. split; [exact Hsp | exact H1].
Defined.

(** ** Timer callbacks *)

Lemma bind_ret_tt (m : M unit) s s1 e1 :
  m s = Ok (tt, s1, e1) -> (m ;; ret tt) s = Ok (tt, s1, e1).
Proof.
  intros H. rewrite (bind_ok _ _ _ _ _ _ H). unfold ret. rewrite app_nil_r. reflexivity.
Qed.

Lemma TimerHit_nothing s :
  isConnected s = false \/ gTicksRequired s = 0 -> TimerHit s = Ok (tt, s, []).
Proof.
  intros H. rewrite TimerHit_eq. destruct (isConnected s); [|reflexivity].
  destruct H as [H | H]; [discriminate|]. rewrite H. reflexivity.
Qed.

Lemma timer_hits_nothing k s :
  isConnected s = false \/ gTicksRequired s = 0 -> timer_hits k s = Ok (tt, s, []).
Proof.
  intros H. induction k as [|k IH]; [reflexivity|].
  cbn [timer_hits]. rewrite (bind_ok _ _ _ _ _ _ (TimerHit_nothing s H)).
  rewrite IH. reflexivity.
Qed.

(** X6.  Timer callbacks left over from an earlier move are harmless:
    [AbortFocuser] does not cancel the timer, but once it has returned, any
    number of callbacks changes nothing and calls nothing: no pulse, no
    new timer. *)
Theorem timer_hits_after_abort (s : FocuserRob) (k : nat) (Hs : session_inv s) :
  exists s1 e1,
    AbortFocuser s = Ok (true, s1, e1) /\
    timer_hits k s1 = Ok (tt, s1, []).
Proof.
  destruct (AbortFocuser_total s Hs) as [e1 H1].
  eexists. exists e1. split; [exact H1|].
  apply timer_hits_nothing. right.
  destruct (gTicksRequired s =? 0) eqn:E; [apply Z.eqb_eq in E; exact E | reflexivity].
Qed.

Lemma timer_hits_after_abort_witness :
  exists s1 e1,
    AbortFocuser in_flight = Ok (true, s1, e1) /\
    timer_hits 3 s1 = Ok (tt, s1, []).
Proof.
  apply (timer_hits_after_abort in_flight 3).
  unfold session_inv, session_active, INT32_MAX, two32. vm_compute.
  repeat split; intros; discriminate.
Defined.

Lemma TimerHit_advance s :
  isConnected s = true ->
  0 <= gTicksElapsed s < gTicksRequired s -> gTicksRequired s <= INT32_MAX ->
  TimerHit s =
  Ok (tt,
      with_gTicksElapsed (gTicksElapsed s + 1)
        (with_gpio (write_pin PWM_TB6612FNG LOW (gpio s)) s),
      EvSetTimer (gPollTimerMs s) :: pulse_events).
Proof.
  intros Hc He Hr. rewrite TimerHit_eq. rewrite Hc.
  assert (E1 : (0 <? gTicksRequired s) = true) by (apply Z.ltb_lt; lia).
  assert (E2 : (gTicksElapsed s <? gTicksRequired s) = true) by (apply Z.ltb_lt; lia).
  rewrite E1, E2. rewrite wrap32_small by lia. reflexivity.
Qed.

(** X7.  While a session has ticks left, [k] timer callbacks (with
    [gTicksElapsed + k <= gTicksRequired]) each arm the timer again for
    [gPollTimerMs] and issue one pulse: the trace is exactly [k] such
    rounds, [gTicksElapsed] grows by [k], and position, last delta, tick
    count, interval, direction flag, direction lines and standby line are
    untouched. *)
Theorem timer_hits_advance (k : nat) (s : FocuserRob)
  (Hc : isConnected s = true)
  (He : 0 <= gTicksElapsed s) (Hk : gTicksElapsed s + Z.of_nat k <= gTicksRequired s)
  (Hr : gTicksRequired s <= INT32_MAX) :
  exists s',
    timer_hits k s = Ok (tt, s', timer_train (gPollTimerMs s) k) /\
    gTicksElapsed s' = gTicksElapsed s + Z.of_nat k /\
    gTicksRequired s' = gTicksRequired s /\
    position s' = position s /\ lastRelativeDelta s' = lastRelativeDelta s /\
    gPollTimerMs s' = gPollTimerMs s /\
    gDirectionIsOutward s' = gDirectionIsOutward s /\
    isConnected s' = true /\
    in1 (gpio s') = in1 (gpio s) /\ in2 (gpio s') = in2 (gpio s) /\
    stby (gpio s') = stby (gpio s).
Proof.
  revert s Hc He Hk Hr. induction k as [|k IH]; intros s Hc He Hk Hr.
  - exists s. split; [reflexivity|]. rewrite Z.add_0_r. repeat split; auto.
  - assert (Hlt : 0 <= gTicksElapsed s < gTicksRequired s) by lia.
    pose proof (TimerHit_advance s Hc Hlt Hr) as H1.
    set (s1 := with_gTicksElapsed (gTicksElapsed s + 1)
                 (with_gpio (write_pin PWM_TB6612FNG LOW (gpio s)) s)) in *.
    destruct (IH s1) as (s' & H2 & F1 & F2 & F3 & F4 & F5 & F6 & F7 & F8 & F9 & F10).
    + exact Hc.
    + cbn. lia.
    + cbn. lia.
    + exact Hr.
    + exists s'. cbn [timer_hits timer_train].
      rewrite (bind_ok _ _ _ _ _ _ H1). rewrite H2. split; [reflexivity|].
      cbn in F1, F2, F5, F6. unfold position, lastRelativeDelta in *. cbn in F3, F4.
      split; [lia|]. repeat (split; [assumption|]). assumption.
Qed.

Lemma timer_hits_advance_witness :
  exists s',
    timer_hits 2 in_flight = Ok (tt, s', timer_train (gPollTimerMs in_flight) 2) /\
    gTicksElapsed s' = 5 /\ position s' = 30000.
Proof.
  assert (Hc : isConnected in_flight = true) by reflexivity.
  assert (He : 0 <= gTicksElapsed in_flight) by (vm_compute; discriminate).
  assert (Hk : gTicksElapsed in_flight + Z.of_nat 2 <= gTicksRequired in_flight)
    by (vm_compute; discriminate).
  assert (Hr : gTicksRequired in_flight <= INT32_MAX) by (vm_compute; discriminate).
  destruct (timer_hits_advance 2 in_flight Hc He Hk Hr) as (s' & H & H1 & _ & H2 & _).
  exists s'. split; [exact H|]. split; [exact H1 | exact H2].
Defined.

Lemma signed_by_direction_zero s : signed_by_direction s 0 = 0.
Proof. unfold signed_by_direction. destruct (gDirectionIsOutward s); reflexivity. Qed.

Lemma timer_hits_complete (r : nat) (s : FocuserRob)
  (Hc : isConnected s = true) (Hs : session_inv s) (Ha : session_active s)
  (Hrem : gTicksRequired s - gTicksElapsed s = Z.of_nat r) :
  exists s',
    timer_hits (S r) s =
      Ok (tt, s',
          timer_train (gPollTimerMs s) r ++ stop_events
            ++ [EvIDSetNumber FocusAbsPosNP None; EvIDSetNumber FocusRelPosNP None]
            ++ idset_events) /\
    ~ session_active s' /\ gpio s' = idle_pins /\ all_idle s' /\
    position s' = position s /\ lastRelativeDelta s' = 0.
Proof.
  revert s Hc Hs Ha Hrem. induction r as [|r IH]; intros s Hc Hs Ha Hrem.
  - pose proof Hs as (Hr & He & Hb). specialize (Hb Ha).
    assert (Ht : TimerHit s =
                 Ok (tt, finalized s,
                     stop_events
                       ++ [EvIDSetNumber FocusAbsPosNP None; EvIDSetNumber FocusRelPosNP None]
                       ++ idset_events)).
    { rewrite TimerHit_eq. rewrite Hc. unfold session_active in Ha.
      assert (E1 : (0 <? gTicksRequired s) = true) by (apply Z.ltb_lt; lia).
      assert (E2 : (gTicksElapsed s <? gTicksRequired s) = false) by (apply Z.ltb_ge; lia).
      rewrite E1, E2.
      rewrite (bind_ok _ _ _ _ _ _ (AbortFocuser_active s Hs Ha)).
      unfold ret. rewrite app_nil_r. reflexivity. }
    exists (finalized s). split.
    + cbn [timer_hits timer_train]. rewrite (bind_ok _ _ _ _ _ _ Ht).
      unfold ret. rewrite app_nil_r. reflexivity.
    + unfold session_active, all_idle, position, lastRelativeDelta. cbn.
      replace (gTicksRequired s - gTicksElapsed s) with 0 by lia.
      rewrite signed_by_direction_zero. repeat split; lia.
  - pose proof Hs as (Hr & He & Hb). specialize (Hb Ha).
    assert (Hlt : 0 <= gTicksElapsed s < gTicksRequired s) by lia.
    assert (Hmax : gTicksRequired s <= INT32_MAX) by lia.
    pose proof (TimerHit_advance s Hc Hlt Hmax) as H1.
    set (s1 := with_gTicksElapsed (gTicksElapsed s + 1)
                 (with_gpio (write_pin PWM_TB6612FNG LOW (gpio s)) s)) in *.
    destruct (IH s1) as (s' & H2 & F1 & F2 & F3 & F4 & F5).
    + exact Hc.
    + unfold session_inv, session_active in *. cbn.
      unfold INT32_MAX, two32 in *. repeat split; lia.
    + exact Ha.
    + cbn. lia.
    + exists s'. change (timer_hits (S (S r))) with (TimerHit ;; timer_hits (S r)).
      rewrite (bind_ok _ _ _ _ _ _ H1). rewrite H2.
      split; [reflexivity|]. repeat (split; [assumption|]). assumption.
Qed.

(** X8.  A session left to the timer runs to its end.  With [r] ticks
    still to do, the next [r] callbacks issue one pulse each and the one
    after them finalizes: the trace is [r] rounds of timer and pulse
    followed by the stop sequence, standby and the notifications.  The
    session is then cleared, the lines are in stop and standby and the
    three lights idle; the finalization adds [gTicksRequired -
    gTicksElapsed = 0], so the position is the one from before the session
    and the last relative delta is 0. *)
Theorem session_runs_to_completion (r : nat) (s : FocuserRob)
  (Hc : isConnected s = true) (Hs : session_inv s) (Ha : session_active s)
  (Hrem : gTicksRequired s - gTicksElapsed s = Z.of_nat r) :
  exists s',
    timer_hits (S r) s =
      Ok (tt, s',
          timer_train (gPollTimerMs s) r ++ stop_events
            ++ [EvIDSetNumber FocusAbsPosNP None; EvIDSetNumber FocusRelPosNP None]
            ++ idset_events) /\
    ~ session_active s' /\ gpio s' = idle_pins /\ all_idle s' /\
    position s' = position s /\ lastRelativeDelta s' = 0.
Proof.
  destruct (timer_hits_complete r s Hc Hs Ha Hrem) as (s' & H & F1 & F2 & F3 & F4 & F5).
  exists s'. split; [exact H|]. split; [exact F1|]. split; [exact F2|].
  split; [exact F3|]. split; [exact F4 | exact F5].
Qed.

Lemma session_runs_to_completion_witness :
  exists s',
    timer_hits 3 in_flight =
      Ok (tt, s',
          timer_train (gPollTimerMs in_flight) 2 ++ stop_events
            ++ [EvIDSetNumber FocusAbsPosNP None; EvIDSetNumber FocusRelPosNP None]
            ++ idset_events) /\
    ~ session_active s' /\ gpio s' = idle_pins /\ all_idle s' /\
    position s' = position in_flight /\ lastRelativeDelta s' = 0.
Proof.
  apply (session_runs_to_completion 2 in_flight).
  - reflexivity.
  - unfold session_inv, session_active, INT32_MAX, two32. vm_compute.
    repeat split; intros; discriminate.
  - vm_compute. discriminate.
  - reflexivity.
Defined.

(** X9.  A move of zero ticks at a speed of 100 or below (every outward
    timed move at such a speed plans zero ticks) goes down the timer path
    all the same: [move] returns BUSY, arms the timer and issues one pulse
    with the driver out of standby, but stores [gTicksRequired = 0], so no
    session is active and the callback that follows does nothing; position
    and last delta are never updated for that pulse and the driver stays
    out of standby. *)
Theorem move_zero_ticks_on_timer (s : FocuserRob)
  (Hs : session_inv s) (Hv : 1 <= speed_of s <= 100) :
  exists s',
    move 0 s =
      Ok (IPS_BUSY, s',
          prepare_events s ++ move_prefix_events 0
            ++ EvSetTimer (Z.quot 1000 (speed_of s)) :: pulse_events) /\
    ~ session_active s' /\ gTicksElapsed s' = 1 /\
    stby (gpio s') = HIGH /\
    position s' = position (prepared s) /\
    lastRelativeDelta s' = lastRelativeDelta (prepared s) /\
    TimerHit s' = Ok (tt, s', []).
Proof.
  assert (Hv1 : 1 <= speed_of s) by lia.
  assert (Hd : MIN_POLL_TIMER_MS <= Z.quot 1000 (speed_of s)).
  { pose proof (delay_threshold _ Hv1) as Ht.
    assert (E : (100 <? speed_of s) = false) by (apply Z.ltb_ge; lia).
    rewrite E in Ht. apply Z.ltb_ge in Ht. exact Ht. }
  assert (Hr : INT32_MIN < 0 <= INT32_MAX) by (unfold INT32_MIN, INT32_MAX; lia).
  eexists. split; [apply (move_async 0 s Hs Hv1 Hd Hr)|].
  split; [unfold session_active; cbn; intros H; apply H; reflexivity|].
  split; [reflexivity|]. split; [reflexivity|]. split; [reflexivity|].
  split; [reflexivity|]. apply TimerHit_nothing. right. reflexivity.
Qed.

Lemma move_zero_ticks_on_timer_witness :
  exists s',
    move 0 initial =
      Ok (IPS_BUSY, s',
          prepare_events initial ++ move_prefix_events 0
            ++ EvSetTimer (Z.quot 1000 (speed_of initial)) :: pulse_events) /\
    ~ session_active s' /\ stby (gpio s') = HIGH.
Proof.
  assert (Hs : session_inv initial).
  { unfold session_inv, session_active, INT32_MAX, two32. vm_compute.
    repeat split; intros; try discriminate; try congruence. }
  assert (Hv : 1 <= speed_of initial <= 100) by (vm_compute; split; discriminate).
  destruct (move_zero_ticks_on_timer initial Hs Hv) as (s' & H & H1 & _ & H2 & _).
  exists s'. split; [exact H|]. split; [exact H1 | exact H2].
Defined.

(** ** Relative moves *)

(** X10.  An outward relative move is the absolute move to
    [position + ticks]: for a position not below zero and a sum below 2^32
    the two requests return the same status, state and trace. *)
Theorem MoveRelFocuser_outward_is_absolute (s : FocuserRob) (ticks : Z)
  (Hpos : 0 <= position s) (Ht : 0 <= ticks) (Hsum : position s + ticks < two32) :
  MoveRelFocuser FOCUS_OUTWARD ticks s = MoveAbsFocuser (position s + ticks) s.
Proof.
  unfold MoveRelFocuser.
  assert (Htgt : MoveRelFocuser_target FOCUS_OUTWARD ticks s =
                 Ok (position s + ticks, s, [])).
  { unfold MoveRelFocuser_target. rewrite bind_get. fold (position s).
    rewrite Z.mul_1_r. unfold wrap32. rewrite Z.mod_small by (unfold two32 in *; lia).
    unfold double_to_uint32, ret.
    assert (E : (0 <=? position s + ticks) && (position s + ticks <? two32) = true).
    { apply andb_true_iff. split; [apply Z.leb_le | apply Z.ltb_lt]; lia. }
    rewrite E. reflexivity. }
  rewrite (bind_ok _ _ _ _ _ _ Htgt).
  destruct (MoveAbsFocuser (position s + ticks) s) as [[[b s2] e2]|f]; reflexivity.
Qed.

Lemma MoveRelFocuser_outward_is_absolute_witness :
  MoveRelFocuser FOCUS_OUTWARD 25 fast = MoveAbsFocuser (position fast + 25) fast.
Proof.
  apply (MoveRelFocuser_outward_is_absolute fast 25).
  - vm_compute. discriminate.
  - lia.
  - vm_compute. reflexivity.
Defined.

(** ** What every reachable state keeps *)

Lemma Forall_pulse_train n : Forall timer_event_ok (pulse_train n).
Proof.
  induction n as [|n IH]; [constructor|].
  cbn. repeat (constructor; [exact I|]). exact IH.
Qed.

Lemma Forall_prepare_events s : Forall timer_event_ok (prepare_events s).
Proof.
  unfold prepare_events. destruct (gTicksRequired s =? 0); [constructor|].
  cbn. repeat (constructor; [exact I|]). constructor.
Qed.

Lemma Forall_move_prefix_events relativeTicks :
  Forall timer_event_ok (move_prefix_events relativeTicks).
Proof.
  unfold move_prefix_events, direction_events.
  destruct (relativeTicks <? 0); cbn; repeat (constructor; [exact I|]); constructor.
Qed.

Lemma delay_bounds speed :
  1 <= speed -> 0 <= Z.quot 1000 speed <= 1000.
Proof.
  intros H. rewrite Z.quot_div_nonneg by lia. split.
  - apply Z.div_pos; lia.
  - apply Z.div_le_upper_bound; nia.
Qed.

Lemma AbortFocuser_ext s r s' evs :
  inv s -> ext_inv s -> AbortFocuser s = Ok (r, s', evs) ->
  ext_inv s' /\ Forall timer_event_ok evs.
Proof.
  intros [_ Hse] (Hl & Hlim & Hp) H.
  destruct (Z.eq_dec (gTicksRequired s) 0) as [E | E].
  - rewrite (AbortFocuser_idle s E) in H. inversion H; subst; clear H. split.
    + unfold ext_inv, lines_inv, limits_inv, poll_inv, session_active in *. cbn.
      ext_auto.
    + cbn. repeat (constructor; [exact I|]). constructor.
  - rewrite (AbortFocuser_active s Hse E) in H. inversion H; subst; clear H. split.
    + unfold ext_inv, lines_inv, limits_inv, poll_inv, session_active in *. cbn.
      ext_auto.
    + cbn. repeat (constructor; [exact I|]). constructor.
Qed.

Lemma prepared_ext s : limits_inv s -> limits_inv (prepared s).
Proof.
  unfold prepared, limits_inv. destruct (gTicksRequired s =? 0); cbn; tauto.
Qed.

Lemma move_ext relativeTicks s r s' evs :
  inv s -> ext_inv s ->
  INT32_MIN <= relativeTicks <= INT32_MAX ->
  move relativeTicks s = Ok (r, s', evs) ->
  ext_inv s' /\ Forall timer_event_ok evs.
Proof.
  intros [Hsp Hse] (Hl & Hlim & Hp) Hr Hm.
  assert (Hv : 1 <= speed_of s) by (destruct Hsp as (_ & _ & ?); lia).
  destruct (Z.eq_dec relativeTicks INT32_MIN) as [->|Hne].
  { rewrite move_min in Hm by assumption. discriminate. }
  assert (Hr' : INT32_MIN < relativeTicks <= INT32_MAX) by lia.
  pose proof (prepared_ext s Hlim) as Hlim'.
  pose proof (delay_bounds _ Hv) as Hdb.
  destruct (Z_lt_le_dec (Z.quot 1000 (speed_of s)) MIN_POLL_TIMER_MS) as [Hd|Hd].
  - assert (Hf : Forall timer_event_ok
                   (prepare_events s ++ move_prefix_events relativeTicks
                      ++ pulse_train (Z.to_nat (Z.abs relativeTicks))
                      ++ stop_events
                      ++ [EvIDSetNumber FocusAbsPosNP None;
                          EvIDSetNumber FocusRelPosNP None])).
    { repeat (apply Forall_app; split).
      * apply Forall_prepare_events.
      * apply Forall_move_prefix_events.
      * apply Forall_pulse_train.
      * cbn. repeat (constructor; [exact I|]). constructor.
      * cbn. repeat (constructor; [exact I|]). constructor. }
    rewrite (move_sync _ _ Hse Hv Hd Hr') in Hm. inversion Hm; subst; clear Hm. split.
    + unfold ext_inv, lines_inv, limits_inv, poll_inv, session_active in *. cbn.
      rewrite prepared_required. ext_auto.
    + exact Hf.
  - assert (Hf : Forall timer_event_ok
                   (prepare_events s ++ move_prefix_events relativeTicks
                      ++ EvSetTimer (Z.quot 1000 (speed_of s)) :: pulse_events)).
    { repeat (apply Forall_app; split).
      * apply Forall_prepare_events.
      * apply Forall_move_prefix_events.
      * constructor; [cbn; lia|]. cbn. repeat (constructor; [exact I|]). constructor. }
    rewrite (move_async _ _ Hse Hv Hd Hr') in Hm. inversion Hm; subst; clear Hm. split.
    + unfold ext_inv, lines_inv, limits_inv, poll_inv, session_active in *. cbn.
      ext_auto.
    + exact Hf.
Qed.

Lemma SetFocuserSpeed_ext speed s r s' evs :
  inv s -> ext_inv s -> SetFocuserSpeed speed s = Ok (r, s', evs) ->
  ext_inv s' /\ Forall timer_event_ok evs.
Proof.
  intros [(Hmin & Hmax & Hv) Hse] He H.
  rewrite SetFocuserSpeed_eq in H by (unfold INT32_MIN, INT32_MAX; lia).
  destruct (speed =? speed_of s); [inversion H; subst; split; [exact He | constructor]|].
  destruct (is_busy s);
    [inversion H; subst; split; [exact He | repeat constructor]|].
  destruct (out_of_range speed (FocusSpeedN s));
    [inversion H; subst; split; [exact He | repeat constructor]|].
  inversion H; subst; clear H. split; [|repeat constructor].
  destruct He as (Hl & Hlim & Hp).
  unfold ext_inv, lines_inv, limits_inv, poll_inv, session_active in *. cbn.
  ext_auto.
Qed.

Lemma MoveAbsFocuser_ext targetTicks s r s' evs :
  inv s -> ext_inv s -> MoveAbsFocuser targetTicks s = Ok (r, s', evs) ->
  ext_inv s' /\ Forall timer_event_ok evs.
Proof.
  intros Hi He H. rewrite MoveAbsFocuser_eq in H.
  destruct (targetTicks =? position s);
    [inversion H; subst; split; [exact He | constructor]|].
  destruct (out_of_range targetTicks (FocusAbsPosN s));
    [inversion H; subst; split; [exact He | repeat constructor]|].
  apply bind_inv in H. destruct H as (rel & s1 & e1 & e2 & Hc & Hm & ->).
  apply double_to_int32_inv in Hc. destruct Hc as (-> & -> & -> & Hr).
  cbn [app]. eapply move_ext; eauto.
Qed.

Lemma MoveRelFocuser_ext dir ticks s r s' evs :
  inv s -> ext_inv s -> MoveRelFocuser dir ticks s = Ok (r, s', evs) ->
  ext_inv s' /\ Forall timer_event_ok evs.
Proof.
  intros Hi He H. unfold MoveRelFocuser in H.
  apply bind_inv in H. destruct H as (t & s1 & e1 & e2 & Ht & Hm & ->).
  unfold MoveRelFocuser_target in Ht. rewrite bind_get in Ht.
  unfold double_to_uint32, ret, fault in Ht.
  match type of Ht with (if ?c then _ else _) _ = _ => destruct c end; [|discriminate].
  inversion Ht; subst. cbn [app]. eapply MoveAbsFocuser_ext; eauto.
Qed.

Lemma MoveFocuser_ext dir speed duration s r s' evs :
  inv s -> ext_inv s -> MoveFocuser dir speed duration s = Ok (r, s', evs) ->
  ext_inv s' /\ Forall timer_event_ok evs.
Proof.
  intros Hi He H. unfold MoveFocuser in H.
  apply bind_inv in H. destruct H as (ok & s1 & e1 & e2 & Hs & Hk & ->).
  pose proof (SetFocuserSpeed_ext _ _ _ _ _ Hi He Hs) as [He1 Hf1].
  apply SetFocuserSpeed_preserves_inv in Hs; [|exact Hi]. destruct Hs as [Hi1 _].
  destruct ok.
  2:{ inversion Hk; subst. split; [exact He1|]. rewrite app_nil_r. exact Hf1. }
  apply bind_inv in Hk. destruct Hk as (rel & s2 & e3 & e4 & Hp & Hk & ->).
  apply planned_relativeTicks_inv in Hp. destruct Hp as (-> & -> & Hr & _).
  rewrite bind_get in Hk. cbn [app].
  destruct (out_of_range (value (FocusAbsPosN s1) + rel) (FocusAbsPosN s1)).
  - inversion Hk; subst. split; [exact He1|].
    apply Forall_app. split; [exact Hf1 | repeat constructor].
  - destruct (move_ext _ _ _ _ _ Hi1 He1 Hr Hk) as [He2 Hf2].
    split; [exact He2|]. apply Forall_app. split; assumption.
Qed.

Lemma TimerHit_ext s r s' evs :
  inv s -> ext_inv s -> TimerHit s = Ok (r, s', evs) ->
  ext_inv s' /\ Forall timer_event_ok evs.
Proof.
  intros Hi He H. rewrite TimerHit_eq in H.
  destruct (isConnected s); [|inversion H; subst; split; [exact He | constructor]].
  destruct (0 <? gTicksRequired s) eqn:E1;
    [|inversion H; subst; split; [exact He | constructor]].
  destruct (gTicksElapsed s <? gTicksRequired s) eqn:E2.
  - inversion H; subst; clear H. apply Z.ltb_lt in E1.
    destruct He as ((Hl1 & Hl2) & Hlim & Hp).
    assert (Ha : session_active s) by (unfold session_active; lia).
    specialize (Hl2 Ha). specialize (Hp Ha). split.
    + unfold ext_inv, lines_inv, limits_inv, poll_inv, session_active in *. cbn.
      rewrite Hl2.
      assert (Hw : mkPins (in1 (running_pins (gDirectionIsOutward s)))
                     (in2 (running_pins (gDirectionIsOutward s))) LOW
                     (stby (running_pins (gDirectionIsOutward s)))
                   = running_pins (gDirectionIsOutward s)).
      { unfold running_pins. destruct (gDirectionIsOutward s); reflexivity. }
      rewrite Hw. ext_auto.
    + constructor; [exact Hp|]. cbn. repeat (constructor; [exact I|]). constructor.
  - apply bind_inv in H. destruct H as (b & s1 & e1 & e2 & Ha & Hk & ->).
    inversion Hk; subst. rewrite app_nil_r. eapply AbortFocuser_ext; eauto.
Qed.

Lemma run_op_ext o s s' evs :
  inv s -> ext_inv s -> run_op o s = Ok (tt, s', evs) ->
  ext_inv s' /\ Forall timer_event_ok evs.
Proof.
  intros Hi He H. destruct o; cbn [run_op] in H.
  - inversion H; subst. split; [exact He | repeat constructor].
  - apply bind_inv in H. destruct H as (b & s1 & e1 & e2 & Hd & Hk & ->).
    inversion Hk; subst; clear Hk. unfold Disconnect in Hd.
    apply bind_inv in Hd. destruct Hd as (b' & s2 & e3 & e4 & Ha & Hk & ->).
    inversion Hk; subst. destruct (AbortFocuser_ext _ _ _ _ Hi He Ha) as [He2 Hf2].
    split; [exact He2|]. rewrite app_nil_r. apply Forall_app.
    split; [exact Hf2 | repeat constructor].
  - apply bind_inv in H. destruct H as (b & s1 & e1 & e2 & Hd & Hk & ->).
    inversion Hk; subst. rewrite app_nil_r. eapply SetFocuserSpeed_ext; eauto.
  - eapply TimerHit_ext; eauto.
  - apply bind_inv in H. destruct H as (b & s1 & e1 & e2 & Hd & Hk & ->).
    inversion Hk; subst. rewrite app_nil_r. eapply MoveFocuser_ext; eauto.
  - apply bind_inv in H. destruct H as (b & s1 & e1 & e2 & Hd & Hk & ->).
    inversion Hk; subst. rewrite app_nil_r. eapply MoveAbsFocuser_ext; eauto.
  - apply bind_inv in H. destruct H as (b & s1 & e1 & e2 & Hd & Hk & ->).
    inversion Hk; subst. rewrite app_nil_r. eapply MoveRelFocuser_ext; eauto.
  - apply bind_inv in H. destruct H as (b & s1 & e1 & e2 & Hd & Hk & ->).
    inversion Hk; subst. rewrite app_nil_r. eapply AbortFocuser_ext; eauto.
  - inversion H; subst. split; [|constructor].
    destruct He as (Hl & Hlim & Hp).
    unfold ext_inv, lines_inv, limits_inv, poll_inv, session_active in *. cbn.
    ext_auto.
Qed.

Lemma startup_ext pre s evs : startup pre = Ok (tt, s, evs) -> ext_inv s.
Proof.
  destruct pre as [a r sp t1 t2 t3 t4 el req poll out [g1 g2 g3 g4] c].
  intros H. vm_compute in H. injection H as <- _.
  unfold ext_inv, lines_inv, limits_inv, poll_inv, session_active; cbn.
  ext_auto.
Qed.

Lemma reachable_ext s : reachable s -> ext_inv s.
Proof.
  induction 1 as [pre s evs H | s o s' evs Hr IH _ H].
  - eapply startup_ext; eauto.
  - eapply run_op_ext; eauto. apply reachable_inv. exact Hr.
Qed.

(** X12.  The output lines in every reachable state, between two requests.
    The two direction lines are never both high: the short brake is never
    applied.  When the driver is in standby the lines are in the stop
    configuration.  While a session is active the driver is out of
    standby, the pulse line is low, and the direction lines are the pair
    [setDirection] wrote for [gDirectionIsOutward]. *)
Theorem lines_in_reachable_states (s : FocuserRob) (H : reachable s) :
  ~ (in1 (gpio s) = HIGH /\ in2 (gpio s) = HIGH) /\
  (stby (gpio s) = LOW -> gpio s = idle_pins) /\
  (session_active s ->
   stby (gpio s) = HIGH /\ pwm (gpio s) = LOW /\
   in1 (gpio s) = (if gDirectionIsOutward s then LOW else HIGH) /\
   in2 (gpio s) = (if gDirectionIsOutward s then HIGH else LOW)).
Proof.
  destruct (reachable_ext s H) as ((Hl1 & Hl2) & _ & _).
  split; [|split].
  - intros [Ha Hb]. destruct Hl1 as [E | E]; rewrite E in Ha, Hb.
    + discriminate.
    + unfold running_pins in *. destruct (gDirectionIsOutward s); discriminate.
  - intros Hst. destruct Hl1 as [E | E]; [exact E|].
    rewrite E in Hst. unfold running_pins in Hst.
    destruct (gDirectionIsOutward s); discriminate.
  - intros Ha. rewrite (Hl2 Ha). unfold running_pins.
    destruct (gDirectionIsOutward s); repeat split.
Qed.

Lemma lines_in_reachable_states_witness :
  stby (gpio in_flight) = HIGH /\ pwm (gpio in_flight) = LOW.
Proof.
  destruct (lines_in_reachable_states in_flight reachable_in_flight) as (_ & _ & H).
  assert (Ha : session_active in_flight) by (vm_compute; discriminate).
  destruct (H Ha) as (H1 & H2 & _). split; [exact H1 | exact H2].
Defined.

(** X13.  No request changes the configuration [initProperties] sets: in
    every reachable state the position limits are [0, 60000], the limits
    of the relative move [0, 30000], the speed limits [1, 255], and the
    configured speed lies within its limits. *)
Theorem configuration_in_reachable_states (s : FocuserRob) (H : reachable s) :
  min (FocusAbsPosN s) = 0 /\ max (FocusAbsPosN s) = 60000 /\
  min (FocusRelPosN s) = 0 /\ max (FocusRelPosN s) = 30000 /\
  min (FocusSpeedN s) = 1 /\ max (FocusSpeedN s) = 255 /\
  1 <= speed_of s <= 255.
Proof.
  destruct (reachable_ext s H) as (_ & Hlim & _).
  destruct (reachable_inv s H) as [(_ & _ & Hv) _].
  unfold limits_inv in Hlim. tauto.
Qed.

Lemma configuration_in_reachable_states_witness :
  max (FocusAbsPosN in_flight) = 60000 /\ 1 <= speed_of in_flight <= 255.
Proof.
  destruct (configuration_in_reachable_states in_flight reachable_in_flight)
    as (_ & H1 & _ & _ & _ & _ & H2).
  split; [exact H1 | exact H2].
Defined.

(** X14.  The timer is never armed below the granularity: whatever
    request runs in a reachable state, every [SetTimer] call in its trace
    asks for an interval between 10 ms and 1000 ms; and while a session is
    active [gPollTimerMs] lies in that range. *)
Theorem timer_intervals_in_range (s : FocuserRob) (H : reachable s) :
  (session_active s -> MIN_POLL_TIMER_MS <= gPollTimerMs s <= 1000) /\
  (forall o s' evs ms,
     run_op o s = Ok (tt, s', evs) ->
     In (EvSetTimer ms) evs -> MIN_POLL_TIMER_MS <= ms <= 1000).
Proof.
  pose proof (reachable_ext s H) as He. pose proof (reachable_inv s H) as Hi.
  split.
  - destruct He as (_ & _ & Hp). exact Hp.
  - intros o s' evs ms Hrun Hin.
    destruct (run_op_ext o s s' evs Hi He Hrun) as [_ Hf].
    rewrite Forall_forall in Hf. exact (Hf _ Hin).
Qed.

Lemma timer_intervals_in_range_witness :
  MIN_POLL_TIMER_MS <= gPollTimerMs in_flight <= 1000 /\
  (forall s' evs ms,
     run_op OpTimerHit in_flight = Ok (tt, s', evs) ->
     In (EvSetTimer ms) evs -> MIN_POLL_TIMER_MS <= ms <= 1000).
Proof.
  destruct (timer_intervals_in_range in_flight reachable_in_flight) as [H1 H2].
  assert (Ha : session_active in_flight) by (vm_compute; discriminate).
  split; [exact (H1 Ha) | exact (H2 OpTimerHit)].
Defined.

(** ** Finalization, disconnection and start-up *)

(** X15.  What [AbortFocuser] does to a session, in general.  When a
    session is active the call returns [true]; the position moves by
    [gTicksRequired - gTicksElapsed], the ticks still to do, negated when
    the session runs outward, and that amount becomes the last relative
    delta; the session is cleared, the lines go to stop and standby and
    the three lights to idle.  Speed, limits, [gTicksElapsed],
    [gPollTimerMs], the direction flag and the connection are untouched,
    and no timer is armed or cancelled. *)
Theorem AbortFocuser_finalizes_session (s : FocuserRob)
  (Hs : session_inv s) (Ha : session_active s) :
  let remaining := gTicksRequired s - gTicksElapsed s in
  let delta := if gDirectionIsOutward s then - remaining else remaining in
  exists s',
    AbortFocuser s =
      Ok (true, s',
          stop_events
            ++ [EvIDSetNumber FocusAbsPosNP None; EvIDSetNumber FocusRelPosNP None]
            ++ idset_events) /\
    position s' = position s + delta /\ lastRelativeDelta s' = delta /\
    gTicksRequired s' = 0 /\ gpio s' = idle_pins /\ all_idle s' /\
    FocusSpeedN s' = FocusSpeedN s /\
    min (FocusAbsPosN s') = min (FocusAbsPosN s) /\
    max (FocusAbsPosN s') = max (FocusAbsPosN s) /\
    gTicksElapsed s' = gTicksElapsed s /\ gPollTimerMs s' = gPollTimerMs s /\
    gDirectionIsOutward s' = gDirectionIsOutward s /\ isConnected s' = isConnected s.
Proof.
  intros remaining delta. exists (finalized s). split.
  - apply AbortFocuser_active; assumption.
  - subst remaining delta. unfold position, lastRelativeDelta, all_idle. cbn.
    unfold signed_by_direction. repeat split.
Qed.

Lemma AbortFocuser_finalizes_session_witness :
  exists s',
    AbortFocuser in_flight =
      Ok (true, s',
          stop_events
            ++ [EvIDSetNumber FocusAbsPosNP None; EvIDSetNumber FocusRelPosNP None]
            ++ idset_events) /\
    position s' = 30002 /\ lastRelativeDelta s' = 2.
Proof.
  assert (Hs : session_inv in_flight).
  { unfold session_inv, session_active, INT32_MAX, two32. vm_compute.
    repeat split; intros; discriminate. }
  assert (Ha : session_active in_flight) by (vm_compute; discriminate).
  destruct (AbortFocuser_finalizes_session in_flight Hs Ha) as (s' & H & H1 & H2 & _).
  exists s'. split; [exact H|]. split; [exact H1 | exact H2].
Defined.

(** X16.  [Disconnect] stops the focuser: under the session invariant it
    returns [true], leaves exactly the state [AbortFocuser] leaves (no
    session, lines in stop and standby, lights idle) and its trace is that
    of the abort followed by the notification. *)
Theorem Disconnect_aborts (s : FocuserRob) (Hs : session_inv s) :
  exists s' evs,
    AbortFocuser s = Ok (true, s', evs) /\
    Disconnect s = Ok (true, s', evs ++ [EvIDMessage "Disconnected."%string]) /\
    ~ session_active s' /\ gpio s' = idle_pins /\ all_idle s'.
Proof.
  destruct (Z.eq_dec (gTicksRequired s) 0) as [E | E].
  - pose proof (AbortFocuser_idle s E) as H. eexists. eexists.
    split; [exact H|]. split.
    + unfold Disconnect. rewrite (bind_ok _ _ _ _ _ _ H). reflexivity.
    + unfold session_active, all_idle. cbn. repeat split. lia.
  - pose proof (AbortFocuser_active s Hs E) as H. eexists. eexists.
    split; [exact H|]. split.
    + unfold Disconnect. rewrite (bind_ok _ _ _ _ _ _ H). reflexivity.
    + unfold session_active, all_idle. cbn. repeat split. lia.
Qed.

Lemma Disconnect_aborts_witness :
  exists s' evs,
    AbortFocuser in_flight = Ok (true, s', evs) /\
    Disconnect in_flight = Ok (true, s', evs ++ [EvIDMessage "Disconnected."%string]) /\
    ~ session_active s' /\ gpio s' = idle_pins /\ all_idle s'.
Proof.
  apply (Disconnect_aborts in_flight).
  unfold session_inv, session_active, INT32_MAX, two32. vm_compute.
  repeat split; intros; discriminate.
Defined.

Lemma FocuserRob_ctor_run pre :
  FocuserRob_ctor pre =
  Ok (tt,
      with_gpio idle_pins
        (with_gDirectionIsOutward false
           (with_gTicksRequired 0 (with_gTicksElapsed 0 pre))),
      stop_events).
Proof.
  destruct pre as [a r sp t1 t2 t3 t4 el req poll out [g1 g2 g3 g4] c].
  reflexivity.
Qed.

(** X17.  Start-up does not depend on what the memory and the lines held
    before, nor on what the [initProperties] of the base class does, as
    long as that call returns and leaves the private members of the driver
    and the output lines alone.  After the constructor and
    [initProperties] the position is 30000, the midpoint of the limits
    [0, 60000]; the last delta is 0 within [0, 30000] and the speed 100
    within [1, 255]; no session is active, [gTicksElapsed] is 0, the
    direction is inward and the lines are in stop and standby. *)
Theorem startup_state (base : M bool) (pre : FocuserRob)
  (Hbase : leaves_driver_members base) :
  exists s evs,
    startup_with base pre = Ok (tt, s, evs) /\
    FocusAbsPosN s = mkINumber 30000 0 60000 /\
    2 * position s = min (FocusAbsPosN s) + max (FocusAbsPosN s) /\
    FocusRelPosN s = mkINumber 0 0 30000 /\
    FocusSpeedN s = mkINumber 100 1 255 /\
    gTicksRequired s = 0 /\ gTicksElapsed s = 0 /\
    gDirectionIsOutward s = false /\ gpio s = idle_pins.
Proof.
  set (s0 := with_gpio idle_pins
               (with_gDirectionIsOutward false
                  (with_gTicksRequired 0 (with_gTicksElapsed 0 pre)))).
  destruct (Hbase s0) as (r & s1 & e1 & Hb & F1 & F2 & F3 & F4).
  assert (Hinit : initProperties_with base s0 =
                  Ok (true,
                      with_FocusRelPosN (mkINumber 0 0 30000)
                        (with_FocusAbsPosN (mkINumber 30000 0 60000)
                           (with_FocusSpeedN (mkINumber 100 1 255) s1)),
                      e1)).
  { unfold initProperties_with. rewrite (bind_ok _ _ _ _ _ _ Hb).
    cbn. rewrite app_nil_r. reflexivity. }
  unfold startup_with.
  rewrite (bind_ok _ _ _ _ _ _ (FocuserRob_ctor_run pre)). fold s0.
  rewrite (bind_ok _ _ _ _ _ _ Hinit).
  eexists. eexists. split; [reflexivity|].
  unfold position. cbn. rewrite F1, F2, F3, F4. subst s0. cbn. repeat split.
Qed.

Lemma startup_state_witness :
  exists s evs,
    startup_with (modify (with_status IPS_OK IPS_OK IPS_OK) ;; ret true) blank
      = Ok (tt, s, evs) /\
    FocusAbsPosN s = mkINumber 30000 0 60000 /\ gpio s = idle_pins.
Proof.
  assert (Hbase : leaves_driver_members
                    (modify (with_status IPS_OK IPS_OK IPS_OK) ;; ret true)).
  { intros s. eexists. eexists. eexists. split; [reflexivity|]. repeat split. }
  destruct (startup_state _ blank Hbase) as (s & evs & H & H1 & _ & _ & _ & _ & _ & _ & H2).
  exists s, evs. split; [exact H|]. split; [exact H1 | exact H2].
Defined.

(** The states [reachable] starts from cover the base-class call: a state
    left by [startup_with base] is one [startup] leaves from some prior
    state, so every theorem over [reachable] holds of it. *)
Lemma startup_with_reachable (base : M bool) (pre s : FocuserRob) evs :
  leaves_driver_members base ->
  startup_with base pre = Ok (tt, s, evs) -> reachable s.
Proof.
  intros Hbase H.
  set (s0 := with_gpio idle_pins
               (with_gDirectionIsOutward false
                  (with_gTicksRequired 0 (with_gTicksElapsed 0 pre)))).
  destruct (Hbase s0) as (r & s1 & e1 & Hb & F1 & F2 & F3 & F4).
  assert (Hinit : initProperties_with base s0 =
                  Ok (true,
                      with_FocusRelPosN (mkINumber 0 0 30000)
                        (with_FocusAbsPosN (mkINumber 30000 0 60000)
                           (with_FocusSpeedN (mkINumber 100 1 255) s1)),
                      e1)).
  { unfold initProperties_with. rewrite (bind_ok _ _ _ _ _ _ Hb).
    cbn. rewrite app_nil_r. reflexivity. }
  unfold startup_with in H.
  rewrite (bind_ok _ _ _ _ _ _ (FocuserRob_ctor_run pre)) in H. fold s0 in H.
  rewrite (bind_ok _ _ _ _ _ _ Hinit) in H.
  injection H as <- _.
  apply (reachable_startup s1 _ stop_events).
  subst s0. cbn in F1, F2, F3, F4.
  destruct s1 as [a r1 sp t1 t2 t3 t4 el req poll out g c]. cbn in *. subst.
  reflexivity.
Qed.

(** ** An asynchronous move from request to completion *)

(** X18.  An absolute move of [n = |target - position|] ticks at a speed
    of 100 or below, requested while connected with no session in flight
    and then left to the timer.  The request returns BUSY having armed the
    timer and issued the first pulse; the [n] callbacks that follow issue
    the other [n - 1] pulses, one each, and the last of them finalizes.
    In all, exactly [n] pulses are issued.  The finalization applies
    [gTicksRequired - gTicksElapsed = 0]: the recorded position after the
    completed move is the position from before the request, not the
    target, and the last relative delta is 0. *)
Theorem asynchronous_move_end_to_end (s : FocuserRob) (targetTicks : Z)
  (Hi : inv s) (Hidle : gTicksRequired s = 0) (Hc : isConnected s = true)
  (Hslow : speed_of s <= 100)
  (Hne : targetTicks <> position s)
  (Hin : min (FocusAbsPosN s) <= targetTicks <= max (FocusAbsPosN s))
  (Hr : INT32_MIN < targetTicks - position s <= INT32_MAX) :
  let n := Z.to_nat (Z.abs (targetTicks - position s)) in
  let delayMs := Z.quot 1000 (speed_of s) in
  exists s1 s2,
    MoveAbsFocuser targetTicks s =
      Ok (IPS_BUSY, s1,
          move_prefix_events (targetTicks - position s)
            ++ EvSetTimer delayMs :: pulse_events) /\
    timer_hits n s1 =
      Ok (tt, s2,
          timer_train delayMs (n - 1) ++ stop_events
            ++ [EvIDSetNumber FocusAbsPosNP None; EvIDSetNumber FocusRelPosNP None]
            ++ idset_events) /\
    ~ session_active s2 /\ gpio s2 = idle_pins /\ all_idle s2 /\
    position s2 = position s /\ position s2 <> targetTicks /\
    lastRelativeDelta s2 = 0.
Proof.
  intros n delayMs.
  pose proof Hi as [(Hmin & Hmax & Hv) Hse].
  assert (Hv1 : 1 <= speed_of s) by lia.
  assert (Hd : MIN_POLL_TIMER_MS <= Z.quot 1000 (speed_of s)).
  { pose proof (delay_threshold _ Hv1) as Ht.
    assert (E : (100 <? speed_of s) = false) by (apply Z.ltb_ge; lia).
    rewrite E in Ht. apply Z.ltb_ge in Ht. exact Ht. }
  assert (Hp : prepared s = s) by (apply prepared_spec; exact Hidle).
  assert (Hpe : prepare_events s = []).
  { unfold prepare_events. apply Z.eqb_eq in Hidle. rewrite Hidle. reflexivity. }
  assert (Hm : MoveAbsFocuser targetTicks s =
               Ok (IPS_BUSY,
                   with_gTicksElapsed 1
                     (with_gTicksRequired (Z.abs (targetTicks - position s))
                        (with_gPollTimerMs (Z.quot 1000 (speed_of s))
                           (with_gpio (running_pins (targetTicks - position s <? 0))
                              (with_gDirectionIsOutward (targetTicks - position s <? 0) s)))),
                   move_prefix_events (targetTicks - position s)
                     ++ EvSetTimer (Z.quot 1000 (speed_of s)) :: pulse_events)).
  { rewrite MoveAbsFocuser_eq.
    assert (E1 : (targetTicks =? position s) = false) by (apply Z.eqb_neq; exact Hne).
    assert (E2 : out_of_range targetTicks (FocusAbsPosN s) = false).
    { unfold out_of_range. apply orb_false_iff. split; [apply Z.ltb_ge; lia|].
      rewrite Z.gtb_ltb. apply Z.ltb_ge. lia. }
    rewrite E1, E2.
    assert (Hcv : double_to_int32 (targetTicks - position s) s =
                  Ok (targetTicks - position s, s, [])).
    { unfold double_to_int32, ret.
      assert (E : (INT32_MIN <=? targetTicks - position s)
                  && (targetTicks - position s <=? INT32_MAX) = true).
      { apply andb_true_iff. split; apply Z.leb_le; lia. }
      rewrite E. reflexivity. }
    rewrite (bind_ok _ _ _ _ _ _ Hcv).
    rewrite (move_async _ _ Hse Hv1 Hd Hr). rewrite Hp, Hpe. reflexivity. }
  match type of Hm with _ = Ok (_, ?st, _) => set (s1 := st) in * end.
  assert (Habs : 1 <= Z.abs (targetTicks - position s) <= INT32_MAX)
    by (unfold INT32_MIN, INT32_MAX in *; lia).
  assert (Hc1 : isConnected s1 = true) by exact Hc.
  assert (Hs1 : session_inv s1).
  { unfold session_inv, session_active. cbn. unfold two32, INT32_MAX in *.
    repeat split; lia. }
  assert (Ha1 : session_active s1) by (unfold session_active; cbn; lia).
  assert (Hrem : gTicksRequired s1 - gTicksElapsed s1 = Z.of_nat (n - 1)).
  { cbn. subst n. lia. }
  destruct (timer_hits_complete (n - 1) s1 Hc1 Hs1 Ha1 Hrem)
    as (s2 & H2 & F1 & F2 & F3 & F4 & F5).
  assert (Hn : S (n - 1) = n) by (subst n; lia).
  rewrite Hn in H2.
  exists s1, s2. split; [exact Hm|]. split; [exact H2|].
  split; [exact F1|]. split; [exact F2|]. split; [exact F3|].
  assert (Hpos : position s2 = position s) by (rewrite F4; reflexivity).
  split; [exact Hpos|]. split; [rewrite Hpos; auto | exact F5].
Qed.

Lemma asynchronous_move_end_to_end_witness :
  exists s1 s2,
    MoveAbsFocuser 30003 (with_isConnected true initial) =
      Ok (IPS_BUSY, s1, move_prefix_events 3 ++ EvSetTimer 10 :: pulse_events) /\
    timer_hits 3 s1 =
      Ok (tt, s2,
          timer_train 10 2 ++ stop_events
            ++ [EvIDSetNumber FocusAbsPosNP None; EvIDSetNumber FocusRelPosNP None]
            ++ idset_events) /\
    position s2 = 30000 /\ lastRelativeDelta s2 = 0.
Proof.
  assert (Hi : inv (with_isConnected true initial)).
  { unfold inv, speed_inv, session_inv, session_active, INT32_MAX, two32. vm_compute.
    repeat split; intros; try discriminate; try congruence. }
  assert (Hidle : gTicksRequired (with_isConnected true initial) = 0) by reflexivity.
  assert (Hc : isConnected (with_isConnected true initial) = true) by reflexivity.
  assert (Hslow : speed_of (with_isConnected true initial) <= 100)
    by (vm_compute; discriminate).
  assert (Hne : 30003 <> position (with_isConnected true initial))
    by (vm_compute; discriminate).
  assert (Hin : min (FocusAbsPosN (with_isConnected true initial)) <= 30003
                <= max (FocusAbsPosN (with_isConnected true initial))).
  { vm_compute. split; discriminate. }
  assert (Hr : INT32_MIN < 30003 - position (with_isConnected true initial) <= INT32_MAX).
  { vm_compute. split; [reflexivity | discriminate]. }
  destruct (asynchronous_move_end_to_end (with_isConnected true initial) 30003
              Hi Hidle Hc Hslow Hne Hin Hr)
    as (s1 & s2 & H1 & H2 & _ & _ & _ & H3 & _ & H4).
  exists s1, s2. split; [exact H1|]. split; [exact H2|]. split; [exact H3 | exact H4].
Defined.

(** ** Requests that always return *)

Lemma move_total relativeTicks s :
  inv s -> INT32_MIN < relativeTicks <= INT32_MAX ->
  exists r s' evs, move relativeTicks s = Ok (r, s', evs).
Proof.
  intros [(Hmin & Hmax & Hv) Hse] Hr.
  assert (Hv1 : 1 <= speed_of s) by lia.
  destruct (Z_lt_le_dec (Z.quot 1000 (speed_of s)) MIN_POLL_TIMER_MS) as [Hd|Hd].
  - rewrite (move_sync _ _ Hse Hv1 Hd Hr). eexists. eexists. eexists. reflexivity.
  - rewrite (move_async _ _ Hse Hv1 Hd Hr). eexists. eexists. eexists. reflexivity.
Qed.

Lemma bind_total {A B} (m : M A) (k : A -> M B) s :
  (exists a s1 e1, m s = Ok (a, s1, e1) /\ exists b s2 e2, k a s1 = Ok (b, s2, e2)) ->
  exists b s2 e, bind m k s = Ok (b, s2, e).
Proof.
  intros (a & s1 & e1 & Hm & b & s2 & e2 & Hk).
  rewrite (bind_ok _ _ _ _ _ _ Hm). rewrite Hk. eexists. eexists. eexists. reflexivity.
Qed.

Lemma MoveFocuser_total dir speed duration s :
  inv s -> 0 <= duration < 65536 ->
  exists r s' evs, MoveFocuser dir speed duration s = Ok (r, s', evs).
Proof.
  intros Hi Hd. pose proof Hi as [(Hmin & Hmax & Hv) Hse].
  unfold MoveFocuser. cbn zeta. apply bind_total.
  pose proof (SetFocuserSpeed_eq speed s) as Heq.
  rewrite Heq by (unfold INT32_MIN, INT32_MAX; lia). clear Heq.
  assert (Hacc : forall s1, inv s1 -> speed_of s1 = speed ->
            exists b s2 e2,
              (relativeTicks <- planned_relativeTicks dir speed duration ;;
               s0 <- get ;;
               if out_of_range (value (FocusAbsPosN s0) + relativeTicks) (FocusAbsPosN s0)
               then IDMessage "Error, requested position is out of range."%string ;;
                    ret IPS_ALERT
               else move relativeTicks) s1 = Ok (b, s2, e2)).
  { intros s1 Hi1 Hsp. pose proof Hi1 as [(_ & _ & Hv1) _].
    assert (Hs : 1 <= speed <= 255) by lia.
    destruct (planned_relativeTicks_accepted dir speed duration s1 Hs Hd) as [Hp Hb].
    apply bind_total. eexists. eexists. eexists. split; [exact Hp|].
    rewrite bind_get.
    match goal with |- context [if ?c then _ else _] => destruct c end.
    - eexists. eexists. eexists. reflexivity.
    - apply move_total; [exact Hi1|].
      unfold INT32_MIN, INT32_MAX. destruct dir; lia. }
  destruct (speed =? speed_of s) eqn:E1.
  { apply Z.eqb_eq in E1. eexists. eexists. eexists. split; [reflexivity|].
    apply Hacc; auto. }
  destruct (is_busy s).
  { eexists. eexists. eexists. split; [reflexivity|].
    eexists. eexists. eexists. reflexivity. }
  destruct (out_of_range speed (FocusSpeedN s)) eqn:E2.
  { eexists. eexists. eexists. split; [reflexivity|].
    eexists. eexists. eexists. reflexivity. }
  unfold out_of_range in E2. apply orb_false_iff in E2. destruct E2 as [Ea Ec].
  apply Z.ltb_ge in Ea. rewrite Z.gtb_ltb in Ec. apply Z.ltb_ge in Ec.
  eexists. eexists. eexists. split; [reflexivity|].
  apply Hacc; [|reflexivity].
  split; [|exact Hse]. unfold speed_inv, speed_of. cbn. lia.
Qed.

Lemma MoveAbsFocuser_total targetTicks s :
  inv s -> INT32_MIN < targetTicks - position s <= INT32_MAX ->
  exists r s' evs, MoveAbsFocuser targetTicks s = Ok (r, s', evs).
Proof.
  intros Hi Hr. rewrite MoveAbsFocuser_eq.
  destruct (targetTicks =? position s); [eexists; eexists; eexists; reflexivity|].
  destruct (out_of_range targetTicks (FocusAbsPosN s));
    [eexists; eexists; eexists; reflexivity|].
  apply bind_total. eexists. eexists. eexists. split.
  - unfold double_to_int32, ret.
    assert (E : (INT32_MIN <=? targetTicks - position s)
                && (targetTicks - position s <=? INT32_MAX) = true).
    { apply andb_true_iff. split; apply Z.leb_le; lia. }
    rewrite E. reflexivity.
  - apply move_total; assumption.
Qed.

(** X19.  In a reachable state no request but a relative move, or an
    absolute move further than an [int32_t] from the position, can run
    into signed overflow or an out-of-range conversion: connect,
    disconnect, speed change, timer callback, timed move, abort and status
    update always return, and so does an absolute move whose distance fits
    32 bits. *)
Theorem requests_always_return (s : FocuserRob) (o : Op)
  (H : reachable s) (Hwf : wf_op o) (Hsafe : arithmetic_safe s o) :
  exists s' evs, run_op o s = Ok (tt, s', evs) /\ reachable s'.
Proof.
  pose proof (reachable_inv s H) as Hi. pose proof Hi as [_ Hse].
  assert (Hrun : exists s' evs, run_op o s = Ok (tt, s', evs)).
  { destruct o; cbn [run_op wf_op arithmetic_safe] in *.
    - eexists. eexists. reflexivity.
    - destruct (AbortFocuser_total s Hse) as [e1 H1].
      unfold Disconnect. unfold bind at 1. unfold bind at 1.
      rewrite H1. cbn. eexists. eexists. reflexivity.
    - assert (Hex : exists r s' evs, SetFocuserSpeed speed s = Ok (r, s', evs)).
      { destruct Hi as [(Hmin & Hmax & Hv) _].
        rewrite SetFocuserSpeed_eq by (unfold INT32_MIN, INT32_MAX; lia).
        split_ifs; eexists; eexists; eexists; reflexivity. }
      destruct Hex as (r & s' & evs & Hex).
      rewrite (bind_ok _ _ _ _ _ _ Hex). eexists. eexists. reflexivity.
    - rewrite TimerHit_eq. destruct (isConnected s); [|eexists; eexists; reflexivity].
      destruct (0 <? gTicksRequired s); [|eexists; eexists; reflexivity].
      destruct (gTicksElapsed s <? gTicksRequired s); [eexists; eexists; reflexivity|].
      destruct (AbortFocuser_total s Hse) as [e1 H1].
      rewrite (bind_ok _ _ _ _ _ _ H1). eexists. eexists. reflexivity.
    - destruct (MoveFocuser_total dir speed duration s Hi (proj2 Hwf))
        as (r & s' & evs & Hex).
      rewrite (bind_ok _ _ _ _ _ _ Hex). eexists. eexists. reflexivity.
    - destruct (MoveAbsFocuser_total targetTicks s Hi Hsafe) as (r & s' & evs & Hex).
      rewrite (bind_ok _ _ _ _ _ _ Hex). eexists. eexists. reflexivity.
    - contradiction.
    - destruct (AbortFocuser_total s Hse) as [e1 H1].
      rewrite (bind_ok _ _ _ _ _ _ H1). eexists. eexists. reflexivity.
    - eexists. eexists. reflexivity. }
  destruct Hrun as (s' & evs & Hrun). exists s', evs. split; [exact Hrun|].
  eapply reachable_step; eauto.
Qed.

Lemma requests_always_return_witness :
  exists s' evs,
    run_op (OpMoveFocuser FOCUS_INWARD 50 2000) in_flight = Ok (tt, s', evs) /\
    reachable s'.
Proof.
  apply (requests_always_return in_flight (OpMoveFocuser FOCUS_INWARD 50 2000)).
  - exact reachable_in_flight.
  - unfold wf_op, INT32_MIN, INT32_MAX. lia.
  - exact I.
Defined.
